(** * hbl2wind_owi_pressure: the grid / record engine

    A shallow embedding of [hbl2wind_owi_pressure (one u and v file).py]:
    the classes [WindGrid], [WindData], [OwiNetcdf] and [OwiAscii].

    Conventions of the embedding.
    - Python [int] is [Z]; the script's [i % n] and [floor(i / n)] are
      [Z.modulo] and [Z.div], which round towards minus infinity as
      Python does.
    - Python [float] (and numpy [float64]) is modelled by exact rationals
      [Q]: comparisons are [Qlt]/[Qle], equality is [==].  Rounding errors
      of binary64 are not represented.
    - A Python exception is a value of [exn]; a computation that may raise
      has type [result A].
    - The text file is its list of lines; the two netCDF wind files are
      records holding the variables the script reads. *)

From Stdlib Require Import ZArith QArith Qround Lqa List String Ascii Bool Lia.
Import ListNotations.

Local Open Scope Z_scope.

(** ** Exceptions and the error monad *)

Inductive exn : Type :=
| IndexError
| ValueError
| TypeError
| AttributeError
| ZeroDivisionError
| RuntimeError (msg : string).

Inductive result (A : Type) : Type :=
| Ok (a : A)
| Raise (e : exn).

Arguments Ok {A} a.
Arguments Raise {A} e.

Definition bind {A B : Type} (m : result A) (k : A -> result B) : result B :=
  match m with
  | Ok a => k a
  | Raise e => Raise e
  end.

Notation "x <- m ;; k" := (bind m (fun x => k))
  (at level 61, m at next level, right associativity).
Notation "' p <- m ;; k" := (bind m (fun x => match x with p => k end))
  (at level 61, p pattern, m at next level, right associativity).

Definition is_ok {A : Type} (m : result A) : bool :=
  match m with Ok _ => true | Raise _ => false end.

(** ** Python built-ins *)

Module Py.

(** [range(n)] as the list [0; 1; ...; n-1] (empty when [n <= 0]). *)
Definition range (n : Z) : list Z :=
  map Z.of_nat (seq 0 (Z.to_nat n)).

(** Index normalisation shared by [l[i]] and [l[i] = v]: a negative
    index counts from the end. *)
Definition norm_index (len i : Z) : result nat :=
  let j := if i <? 0 then i + len else i in
  if (0 <=? j) && (j <? len) then Ok (Z.to_nat j) else Raise IndexError.

(** [l[i]] *)
Definition getitem {A : Type} (l : list A) (i : Z) : result A :=
  j <- norm_index (Z.of_nat (List.length l)) i ;;
  match nth_error l j with
  | Some a => Ok a
  | None => Raise IndexError
  end.

Fixpoint update {A : Type} (l : list A) (j : nat) (a : A) : list A :=
  match l, j with
  | [], _ => []
  | _ :: t, O => a :: t
  | h :: t, S j' => h :: update t j' a
  end.

(** [l[i] = a] *)
Definition setitem {A : Type} (l : list A) (i : Z) (a : A) : result (list A) :=
  j <- norm_index (Z.of_nat (List.length l)) i ;;
  Ok (update l j a).

(** [s[lo:hi]] for the non-negative bounds the script uses. *)
Definition slice (s : string) (lo hi : Z) : string :=
  substring (Z.to_nat lo) (Z.to_nat (hi - lo)) s.

(** [math.ceil(n / 8)] for an integer [n].  The true division is exact
    here: [n] is a product of two numbers read from 4-character
    fields. *)
Definition ceil_div8 (n : Z) : Z := Qceiling (inject_Z n / 8).

(** [round(x)]: to the nearest integer, ties to the even one. *)
Definition round (x : Q) : Z :=
  let f := Qfloor x in
  match (x - inject_Z f ?= 1 # 2)%Q with
  | Lt => f
  | Gt => f + 1
  | Eq => if Z.even f then f else f + 1
  end.

(** [round(x, 2)] *)
Definition round2 (x : Q) : Q := (inject_Z (round (x * 100)) / 100)%Q.

Definition Qltb (x y : Q) : bool := negb (Qle_bool y x).

(** [min(l)] and [max(l)]: the first extremal element. *)
Definition min (l : list Q) : result Q :=
  match l with
  | [] => Raise ValueError
  | h :: t => Ok (fold_left (fun m x => if Qltb x m then x else m) t h)
  end.

Definition max (l : list Q) : result Q :=
  match l with
  | [] => Raise ValueError
  | h :: t => Ok (fold_left (fun m x => if Qltb m x then x else m) t h)
  end.

(** Truth value of a float: everything but zero. *)
Definition truthy (x : Q) : bool := negb (Qeq_bool x 0).

End Py.

(** ** numpy *)

Module Np.

(** [numpy.arange(start, stop, step)]: [ceil((stop - start) / step)]
    points [start + k * step]; a zero step is an error. *)
Definition arange (start stop step : Q) : result (list Q) :=
  if Qeq_bool step 0 then Raise ZeroDivisionError
  else
    let n := Qceiling ((stop - start) / step) in
    Ok (map (fun k => (start + inject_Z k * step)%Q) (Py.range n)).

(** [numpy.linspace(start, stop, num)]: [num] evenly spaced points, both
    ends included. *)
Definition linspace (start stop : Q) (num : Z) : result (list Q) :=
  if num <? 0 then Raise ValueError
  else
    let step := ((stop - start) / inject_Z (num - 1))%Q in
    Ok (map (fun k => if (0 <? k) && (k =? num - 1) then stop
                      else (start + inject_Z k * step)%Q)
            (Py.range num)).

(** [numpy.where(a > 180, a - 360, a)] *)
Definition where_gt180 (a : list Q) : list Q :=
  map (fun x => if Py.Qltb 180 x then (x - 360)%Q else x) a.

(** [numpy.meshgrid(x, y)]: two arrays of [len(y)] rows and [len(x)]
    columns. *)
Definition meshgrid (x y : list Q) : list (list Q) * list (list Q) :=
  (map (fun _ => x) y, map (fun yj => map (fun _ => yj) x) y).

End Np.

(** A 2-D array of floats, as a list of rows. *)
Definition field : Type := list (list Q).

(** ** What the script takes from outside

    [int] and [float] applied to a slice of a text line, and scipy's
    [interp2d(x, y, z)(xnew, ynew)].  They are parameters of the
    model. *)

Class Externals : Type := {
  py_int : string -> result Z;
  py_float : string -> result Q;
  interp2d : list Q -> list Q -> field -> list Q -> list Q -> result field
}.

(** ** class WindGrid *)

Module WindGrid.

Record t : Type := mk {
  n_longitude : Z;
  n_latitude : Z;
  d_longitude : Q;
  d_latitude : Q;
  xll : Q;
  yll : Q;
  xur : Q;
  yur : Q;
  lon : field;
  lat : field;
  lon1d : list Q;
  lat1d : list Q
}.

(** [WindGrid.__init__(self, lon, lat)] *)
Definition init (lon lat : list Q) : result t :=
  let n_longitude := Z.of_nat (List.length lon) in
  let n_latitude := Z.of_nat (List.length lat) in
  lon_1 <- Py.getitem lon 1 ;;
  lon_0 <- Py.getitem lon 0 ;;
  let d_longitude := Py.round2 (lon_1 - lon_0) in
  lat_1 <- Py.getitem lat 1 ;;
  lat_0 <- Py.getitem lat 0 ;;
  let d_latitude := Py.round2 (lat_1 - lat_0) in
  let lon := Np.where_gt180 lon in
  xll <- Py.min lon ;;
  yll <- Py.min lat ;;
  xur <- Py.max lon ;;
  yur <- Py.max lat ;;
  let (lon2d, lat2d) := Np.meshgrid lon lat in
  Ok (mk n_longitude n_latitude d_longitude d_latitude
         xll yll xur yur lon2d lat2d lon lat).

(** [WindGrid.__generate_equidistant_grid_from_grid(grid)] *)
Definition generate_equidistant_grid_from_grid (grid : t) : result t :=
  x <- Np.arange (xll grid) (xur grid) (d_longitude grid) ;;
  y <- Np.arange (yll grid) (yur grid) (d_latitude grid) ;;
  init x y.

(** [WindGrid.__generate_equidistant_grid_from_corners(x1,y1,x2,y2,dx,dy)] *)
Definition generate_equidistant_grid_from_corners
    (x1 y1 x2 y2 dx dy : Q) : result t :=
  x <- Np.arange x1 x2 dx ;;
  y <- Np.arange y1 y2 dy ;;
  init x y.

(** [WindGrid.generate_equidistant_grid(grid=None, xll=None, ..., dy=None)].
    A [WindGrid] object is always true; a keyword argument is true when
    it is given (not [None]) and not zero. *)
Definition generate_equidistant_grid
    (grid : option t) (xll yll xur yur dx dy : option Q) : result t :=
  match grid with
  | Some g => generate_equidistant_grid_from_grid g
  | None =>
      match xll, yll, xur, yur, dx, dy with
      | Some x1, Some y1, Some x2, Some y2, Some sx, Some sy =>
          if Py.truthy x1 && Py.truthy y1 && Py.truthy x2
             && Py.truthy y2 && Py.truthy sx && Py.truthy sy
          then generate_equidistant_grid_from_corners x1 y1 x2 y2 sx sy
          else Raise (RuntimeError "No valid function call provided")
      | _, _, _, _, _, _ =>
          Raise (RuntimeError "No valid function call provided")
      end
  end.

(** [WindGrid.interpolate_to_grid(original_grid, original_data, new_grid)] *)
Definition interpolate_to_grid `{Externals}
    (original_grid : t) (original_data : field) (new_grid : t) : result field :=
  interp2d (lon1d original_grid) (lat1d original_grid) original_data
           (lon1d new_grid) (lat1d new_grid).

End WindGrid.

(** ** datetime *)

Module Datetime.

Record t : Type := mk {
  year : Z;
  month : Z;
  day : Z;
  hour : Z;
  minute : Z
}.

Definition is_leap (y : Z) : bool :=
  (y mod 4 =? 0) && (negb (y mod 100 =? 0) || (y mod 400 =? 0)).

Definition days_in_month (y m : Z) : Z :=
  if m =? 2 then (if is_leap y then 29 else 28)
  else if (m =? 4) || (m =? 6) || (m =? 9) || (m =? 11) then 30
  else 31.

(** [datetime(year, month, day, hour, minute)] *)
Definition make (y mo d h mi : Z) : result t :=
  if (1 <=? y) && (y <=? 9999) && (1 <=? mo) && (mo <=? 12)
     && (1 <=? d) && (d <=? days_in_month y mo)
     && (0 <=? h) && (h <=? 23) && (0 <=? mi) && (mi <=? 59)
  then Ok (mk y mo d h mi)
  else Raise ValueError.

Definition days_before_year (y : Z) : Z :=
  let p := y - 1 in p * 365 + p / 4 - p / 100 + p / 400.

Definition days_before_month (y m : Z) : Z :=
  fold_left (fun acc k => acc + days_in_month y k) (map (Z.add 1) (Py.range (m - 1))) 0.

(** [d.toordinal()]: day 1 is 0001-01-01. *)
Definition toordinal (d : t) : Z :=
  days_before_year (year d) + days_before_month (year d) (month d) + day d.

(** [a - b] as the normalised pair [(days, seconds)] of a timedelta. *)
Definition sub (a b : t) : Z * Z :=
  let s := (toordinal a - toordinal b) * 86400
           + (hour a - hour b) * 3600 + (minute a - minute b) * 60 in
  (s / 86400, s mod 86400).

End Datetime.

(** ** class WindData *)

Module WindData.

(** The pressure is the nested Python list built by [OwiAscii.get]; an
    entry is [None] until it is assigned. *)
Record t : Type := mk {
  date : Datetime.t;
  wind_grid : WindGrid.t;
  pressure : list (list (option Q));
  u_velocity : field;
  v_velocity : field
}.

End WindData.

(** Conversion of a nested list to a float array, as numpy does when the
    list is interpolated or written: an entry that is [None] is
    refused. *)
Fixpoint asarray_row (r : list (option Q)) : result (list Q) :=
  match r with
  | [] => Ok []
  | None :: _ => Raise TypeError
  | Some x :: r' => t <- asarray_row r' ;; Ok (x :: t)
  end.

Fixpoint asarray (p : list (list (option Q))) : result field :=
  match p with
  | [] => Ok []
  | r :: p' => a <- asarray_row r ;; t <- asarray p' ;; Ok (a :: t)
  end.

(** ** netCDF4 variables along the unlimited dimension *)

Module Nc.

(** The shape test of a slab assignment [var[idx, :, :] = data]. *)
Definition conforms (data : field) (n_lat n_lon : Z) : bool :=
  (Z.of_nat (List.length data) =? n_lat)
  && forallb (fun r => Z.of_nat (List.length r) =? n_lon) data.

(** Record number addressed by [var[idx]] when the dimension has length
    [len]: a negative index counts from the end, a non-negative one may
    lie beyond the end. *)
Definition record_index (len idx : Z) : result nat :=
  if 0 <=? idx then Ok (Z.to_nat idx)
  else if - idx <=? len then Ok (Z.to_nat (idx + len))
  else Raise IndexError.

(** Write record [j] of a variable; records never written hold the fill
    value [None]. *)
Definition write {A : Type} (v : list (option A)) (j : nat) (a : A)
  : list (option A) :=
  Py.update (v ++ repeat None (S j - List.length v)) j (Some a).

End Nc.

(** ** class OwiNetcdf

    The object is the state of the output file: the three dimensions
    and the six variables of group [Main].  An exception aborts the
    conversion; the partly written file it leaves is not represented. *)

Module OwiNetcdf.

Record t : Type := mk {
  wind_grid : WindGrid.t;
  bounds : option (list Q);
  equidistant_wind_grid : option WindGrid.t;
  dim_time : Z;
  dim_longitude : Z;
  dim_latitude : Z;
  var_time : list (option Z);
  var_lon : field;
  var_lat : field;
  var_psfc : list (option field);
  var_u10 : list (option field);
  var_v10 : list (option field);
  is_open : bool
}.

(** Truth value of [bounds]: [None] and the empty list are false. *)
Definition has_bounds (b : option (list Q)) : bool :=
  match b with
  | Some (_ :: _) => true
  | _ => false
  end.

Definition base_date : Datetime.t := Datetime.mk 1990 1 1 0 0.

(** [OwiNetcdf.__init__(self, filename, wind_grid, bounds)] *)
Definition init (wind_grid : WindGrid.t) (bounds : option (list Q)) : result t :=
  equidistant <-
    match bounds with
    | Some ((_ :: _) as b) =>
        (* [if self.__bounds:] *)
        b0 <- Py.getitem b 0 ;;
        b1 <- Py.getitem b 1 ;;
        b2 <- Py.getitem b 2 ;;
        b3 <- Py.getitem b 3 ;;
        b4 <- Py.getitem b 4 ;;
        b5 <- Py.getitem b 5 ;;
        g <- WindGrid.generate_equidistant_grid None
               (Some b0) (Some b1) (Some b2) (Some b3) (Some b4) (Some b5) ;;
        Ok (Some g)
    | _ => Ok None
    end ;;
  let canonical :=
    match equidistant with
    | Some g => g
    | None => wind_grid
    end in
  Ok (mk wind_grid bounds equidistant
         0 (WindGrid.n_longitude canonical) (WindGrid.n_latitude canonical)
         [] (WindGrid.lon canonical) (WindGrid.lat canonical)
         [] [] [] true).

(** The [if self.__bounds: ... else: ...] block of [append]: the three
    fields to write, interpolated onto the equidistant grid when bounds
    were given, as they are otherwise (the pressure is then still the
    nested list). *)
Definition append_fields `{Externals} (self : t) (wind_data : WindData.t)
  : result (list (list (option Q)) * field * field) :=
  if has_bounds (bounds self) then
    match equidistant_wind_grid self with
    | Some eq_grid =>
        p <- asarray (WindData.pressure wind_data) ;;
        press <- WindGrid.interpolate_to_grid
                   (WindData.wind_grid wind_data) p eq_grid ;;
        u_vel <- WindGrid.interpolate_to_grid
                   (WindData.wind_grid wind_data)
                   (WindData.u_velocity wind_data) eq_grid ;;
        v_vel <- WindGrid.interpolate_to_grid
                   (WindData.wind_grid wind_data)
                   (WindData.v_velocity wind_data) eq_grid ;;
        Ok (map (map Some) press, u_vel, v_vel)
    | None => Raise AttributeError
    end
  else
    Ok (WindData.pressure wind_data,
        WindData.u_velocity wind_data, WindData.v_velocity wind_data).

(** [OwiNetcdf.append(self, idx, wind_data)].  Every assignment
    [var[idx] = ...] addresses record [idx] of the unlimited dimension
    and lengthens the dimension when the record lies beyond its end.
    The data of a slab assignment must have the shape of the two fixed
    dimensions (numpy broadcasting of smaller arrays is left out). *)
Definition append `{Externals} (self : t) (idx : Z) (wind_data : WindData.t)
  : result t :=
  let delta := Datetime.sub (WindData.date wind_data) base_date in
  let minutes := Py.round (inject_Z (fst delta * 86400 + snd delta) / 60) in
  '(press, u_vel, v_vel) <- append_fields self wind_data ;;
  if negb (is_open self) then Raise (RuntimeError "NetCDF: Not a valid ID")
  else
    j <- Nc.record_index (dim_time self) idx ;;
    let len := Z.max (dim_time self) (Z.of_nat j + 1) in
    press <- asarray press ;;
    if Nc.conforms press (dim_latitude self) (dim_longitude self)
       && Nc.conforms u_vel (dim_latitude self) (dim_longitude self)
       && Nc.conforms v_vel (dim_latitude self) (dim_longitude self)
    then
      Ok (mk (wind_grid self) (bounds self) (equidistant_wind_grid self)
             len (dim_longitude self) (dim_latitude self)
             (Nc.write (var_time self) j minutes)
             (var_lon self) (var_lat self)
             (Nc.write (var_psfc self) j press)
             (Nc.write (var_u10 self) j u_vel)
             (Nc.write (var_v10 self) j v_vel)
             (is_open self))
    else Raise ValueError.

(** [OwiNetcdf.close(self)] *)
Definition close (self : t) : t :=
  mk (wind_grid self) (bounds self) (equidistant_wind_grid self)
     (dim_time self) (dim_longitude self) (dim_latitude self)
     (var_time self) (var_lon self) (var_lat self)
     (var_psfc self) (var_u10 self) (var_v10 self) false.

End OwiNetcdf.

(** A [for] loop whose body may raise. *)
Fixpoint for_each {A S : Type} (body : S -> A -> result S) (l : list A) (s : S)
  : result S :=
  match l with
  | [] => Ok s
  | a :: l' => s' <- body s a ;; for_each body l' s'
  end.

(** ** class OwiAscii *)

Module OwiAscii.

(** What the script reads from a wind file: the two axes and the
    samples of the time-varying variable ([u10] in the first file,
    [v10] in the second). *)
Record HblFile : Type := mk_hbl {
  hbl_lon : list Q;
  hbl_lat : list Q;
  hbl_var : list field
}.

(** The object, together with the contents of the three files it names:
    [pre_file] is [readlines()] of the pressure file. *)
Record t : Type := mk {
  u_file : HblFile;
  v_file : HblFile;
  pre_file : list string;
  idx : Z;
  num_lats : Z;
  num_lons : Z;
  pre_idx_header_row : Z;
  date : Datetime.t;
  grid : WindGrid.t
}.

Section Methods.
Context `{Externals}.

(** [__get_num_lats] *)
Definition get_num_lats (lines : list string) : result Z :=
  line <- Py.getitem lines 1 ;;
  py_int (Py.slice line 5 9).

(** [__get_num_lons] *)
Definition get_num_lons (lines : list string) : result Z :=
  line <- Py.getitem lines 1 ;;
  py_int (Py.slice line 15 19).

(** [__get_pre_idx_header_row] *)
Definition get_pre_idx_header_row (num_lats num_lons idx : Z) : Z :=
  1 + Py.ceil_div8 (num_lats * num_lons) * idx + idx.

(** [__get_date] *)
Definition get_date (lines : list string) (pre_idx_header_row : Z)
  : result Datetime.t :=
  line <- Py.getitem lines pre_idx_header_row ;;
  let date_str := Py.slice line 68 80 in
  y <- py_int (Py.slice date_str 0 4) ;;
  mo <- py_int (Py.slice date_str 4 6) ;;
  d <- py_int (Py.slice date_str 6 8) ;;
  h <- py_int (Py.slice date_str 8 10) ;;
  mi <- py_int (Py.slice date_str 10 12) ;;
  Datetime.make y mo d h mi.

(** [__get_grid] *)
Definition get_grid (lines : list string) (pre_idx_header_row num_lats num_lons : Z)
  : result WindGrid.t :=
  line <- Py.getitem lines pre_idx_header_row ;;
  lat_step <- py_float (Py.slice line 31 37) ;;
  lon_step <- py_float (Py.slice line 22 28) ;;
  sw_corner_lat <- py_float (Py.slice line 43 51) ;;
  sw_corner_lon <- py_float (Py.slice line 57 65) ;;
  lat <- Np.linspace sw_corner_lat
           (sw_corner_lat + inject_Z (num_lats - 1) * lat_step)%Q num_lats ;;
  lon <- Np.linspace sw_corner_lon
           (sw_corner_lon + inject_Z (num_lons - 1) * lon_step)%Q num_lons ;;
  WindGrid.init lon lat.

(** [OwiAscii.__init__(self, u_filename, v_filename, pre_filename, idx)] *)
Definition init (u_file v_file : HblFile) (pre_file : list string) (idx : Z)
  : result t :=
  num_lats <- get_num_lats pre_file ;;
  num_lons <- get_num_lons pre_file ;;
  let pre_idx_header_row := get_pre_idx_header_row num_lats num_lons idx in
  date <- get_date pre_file pre_idx_header_row ;;
  grid <- get_grid pre_file pre_idx_header_row num_lats num_lons ;;
  Ok (mk u_file v_file pre_file idx num_lats num_lons pre_idx_header_row date grid).

(** The body of the loop of [get] for one value of [i]. *)
Definition get_body (self : t) (prmsl : list (list (option Q))) (i : Z)
  : result (list (list (option Q))) :=
  let low_idx := 1 + 10 * (i mod 8) in
  let high_idx := 10 + 10 * (i mod 8) in
  let line_idx := pre_idx_header_row self + 1 + i / 8 in
  let lon_idx := i mod num_lons self in
  let lat_idx := i / num_lons self in
  line <- Py.getitem (pre_file self) line_idx ;;
  v <- py_float (Py.slice line low_idx high_idx) ;;
  row <- Py.getitem prmsl lat_idx ;;
  row' <- Py.setitem row lon_idx (Some v) ;;
  Py.setitem prmsl lat_idx row'.

(** The first half of [get]: the pressure field of the record. *)
Definition get_prmsl (self : t) : result (list (list (option Q))) :=
  let prmsl := map (fun _ => map (fun _ => None) (Py.range (num_lons self)))
                   (Py.range (num_lats self)) in
  for_each (get_body self) (Py.range (num_lats self * num_lons self)) prmsl.

(** [OwiAscii.get(self)] *)
Definition get (self : t) : result WindData.t :=
  prmsl <- get_prmsl self ;;
  let hbl_idx := (idx self - 384) * 15 in
  let hbl_lon := hbl_lon (u_file self) in
  let hbl_lat := hbl_lat (u_file self) in
  hbl_uvel <- Py.getitem (hbl_var (u_file self)) hbl_idx ;;
  let owi_lon := WindGrid.lon1d (grid self) in
  let owi_lat := WindGrid.lat1d (grid self) in
  u_interp <- interp2d hbl_lon hbl_lat hbl_uvel owi_lon owi_lat ;;
  hbl_vvel <- Py.getitem (hbl_var (v_file self)) hbl_idx ;;
  v_interp <- interp2d hbl_lon hbl_lat hbl_vvel owi_lon owi_lat ;;
  Ok (WindData.mk (date self) (grid self) prmsl u_interp v_interp).

End Methods.

End OwiAscii.

(** ** main

    The loop of [main] over the 216 time indices from 384 on; [wind] is
    [None] until the first snapshot has been read. *)

Definition num_times : Z := 216.

Definition main_body `{Externals}
    (u_file v_file : OwiAscii.HblFile) (pre_file : list string)
    (output_format : string) (bounds : option (list Q))
    (wind : option OwiNetcdf.t) (k : Z) : result (option OwiNetcdf.t) :=
  let time_index := 384 + k in
  owi_ascii <- OwiAscii.init u_file v_file pre_file time_index ;;
  wind_data <- OwiAscii.get owi_ascii ;;
  w <- match wind with
       | Some w => Ok w
       | None =>
           if String.eqb output_format "netcdf"
           then OwiNetcdf.init (WindData.wind_grid wind_data) bounds
           else Raise (RuntimeError "Invalid output format selected")
       end ;;
  w' <- OwiNetcdf.append w (time_index - 384) wind_data ;;
  Ok (Some w').

Definition main `{Externals}
    (u_file v_file : OwiAscii.HblFile) (pre_file : list string)
    (output_format : string) (bounds : option (list Q)) : result OwiNetcdf.t :=
  wind <- for_each (main_body u_file v_file pre_file output_format bounds)
            (Py.range num_times) None ;;
  match wind with
  | Some w => Ok (OwiNetcdf.close w)
  | None => Raise AttributeError
  end.


(** ** An instance of the parameters, to run the model

    [int] and [float] on plain decimal text (blanks, an optional sign,
    digits, and for [float] an optional point), which is what Fortran
    [I4] and [F] edit descriptors write; and a resampling that takes the
    value of the first source row and column that is not below the
    target coordinate (the last one when there is none).  The theorems
    below hold for every instance; this one serves the examples. *)

Module Decimal.

Definition is_blank (c : ascii) : bool :=
  let n := nat_of_ascii c in
  (n =? 32)%nat || ((9 <=? n)%nat && (n <=? 13)%nat).

Definition digit (c : ascii) : option Z :=
  let n := nat_of_ascii c in
  if (48 <=? n)%nat && (n <=? 57)%nat then Some (Z.of_nat (n - 48)) else None.

Fixpoint drop_blanks (l : list ascii) : list ascii :=
  match l with
  | c :: l' => if is_blank c then drop_blanks l' else l
  | [] => []
  end.

Definition strip (l : list ascii) : list ascii :=
  rev (drop_blanks (rev (drop_blanks l))).

(** Value of a run of digits, most significant first. *)
Fixpoint digits (acc : Z) (l : list ascii) : option Z :=
  match l with
  | [] => Some acc
  | c :: l' =>
      match digit c with
      | Some d => digits (10 * acc + d) l'
      | None => None
      end
  end.

Definition sign_and_rest (l : list ascii) : Z * list ascii :=
  match l with
  | "-"%char :: l' => (-1, l')
  | "+"%char :: l' => (1, l')
  | _ => (1, l)
  end.

Definition int_of_string (s : string) : result Z :=
  let (sg, body) := sign_and_rest (strip (list_ascii_of_string s)) in
  match body with
  | [] => Raise ValueError
  | _ =>
      match digits 0 body with
      | Some n => Ok (sg * n)
      | None => Raise ValueError
      end
  end.

Fixpoint split_point (l : list ascii) : list ascii * option (list ascii) :=
  match l with
  | [] => ([], None)
  | "."%char :: l' => ([], Some l')
  | c :: l' => let (a, b) := split_point l' in (c :: a, b)
  end.

Definition float_of_string (s : string) : result Q :=
  let (sg, body) := sign_and_rest (strip (list_ascii_of_string s)) in
  let (ip, fp) := split_point body in
  let fp := match fp with Some f => f | None => [] end in
  match ip ++ fp with
  | [] => Raise ValueError
  | ds =>
      match digits 0 ds with
      | Some n => Ok (Qred (inject_Z (sg * n) / inject_Z (10 ^ Z.of_nat (List.length fp))))
      | None => Raise ValueError
      end
  end.

(** Index of the first coordinate of [axis] that is not below [c]. *)
Fixpoint locate (axis : list Q) (c : Q) : nat :=
  match axis with
  | [] => O
  | [_] => O
  | a :: axis' => if Qle_bool c a then O else S (locate axis' c)
  end.

Definition resample (x y : list Q) (z : field) (xn yn : list Q) : result field :=
  Ok (map (fun yj => map (fun xi => nth (locate x xi) (nth (locate y yj) z []) 0%Q) xn) yn).

Definition externals : Externals := {|
  py_int := int_of_string;
  py_float := float_of_string;
  interp2d := resample
|}.

End Decimal.

(** ** Notions the statements use *)

(** A longitude value held by a grid: in its 1-D axis, in its 2-D mesh
    or as one of its two corners. *)
Definition stored_longitude (g : WindGrid.t) (v : Q) : Prop :=
  In v (WindGrid.lon1d g)
  \/ (exists row, In row (WindGrid.lon g) /\ In v row)
  \/ v = WindGrid.xll g \/ v = WindGrid.xur g.

(** An axis is strictly monotonic when its values strictly increase or
    strictly decrease. *)
Fixpoint increasing (l : list Q) : bool :=
  match l with
  | a :: (b :: _) as t => Py.Qltb a b && increasing t
  | _ => true
  end.

Definition strictly_monotonic (l : list Q) : bool :=
  increasing l || increasing (rev l).

(** Entry [(r, c)] of a nested list. *)
Definition entry {A : Type} (p : list (list A)) (r c : Z) : option A :=
  match nth_error p (Z.to_nat r) with
  | Some row => nth_error row (Z.to_nat c)
  | None => None
  end.

(** A nested list of [n_lat] rows of [n_lon] entries each. *)
Definition shape {A : Type} (n_lat n_lon : Z) (p : list (list A)) : Prop :=
  Z.of_nat (List.length p) = n_lat
  /\ Forall (fun row => Z.of_nat (List.length row) = n_lon) p.

(** The text of the [m]-th 10-character field of a data line. *)
Definition field_text (line : string) (m : Z) : string :=
  Py.slice line (10 * m) (10 * m + 10).

(** The value of position [k] of the record whose header is line [hdr]:
    decoded from the [(k mod 8)]-th field of the [k / 8]-th line after
    the header, the first column of the field left out. *)
Definition record_value `{Externals} (lines : list string) (hdr k : Z) : result Q :=
  line <- Py.getitem lines (hdr + 1 + k / 8) ;;
  py_float (Py.slice (field_text line (k mod 8)) 1 10).

(** Position [k] of the record has been stored in [p]. *)
Definition filled `{Externals} (self : OwiAscii.t) (p : list (list (option Q))) (k : Z)
  : Prop :=
  exists v,
    record_value (OwiAscii.pre_file self) (OwiAscii.pre_idx_header_row self) k = Ok v
    /\ entry p (k / OwiAscii.num_lons self) (k mod OwiAscii.num_lons self) = Some (Some v).

(** The fields of a snapshot can be written to a container: they are
    arrays of floats with the shape of its two fixed dimensions. *)
Definition writable `{Externals} (self : OwiNetcdf.t) (wd : WindData.t) : Prop :=
  exists press u_vel v_vel p,
    OwiNetcdf.append_fields self wd = Ok (press, u_vel, v_vel)
    /\ asarray press = Ok p
    /\ Nc.conforms p (OwiNetcdf.dim_latitude self) (OwiNetcdf.dim_longitude self) = true
    /\ Nc.conforms u_vel (OwiNetcdf.dim_latitude self) (OwiNetcdf.dim_longitude self) = true
    /\ Nc.conforms v_vel (OwiNetcdf.dim_latitude self) (OwiNetcdf.dim_longitude self) = true.

(** Two containers that differ only in the records written so far. *)
Definition same_schema (a b : OwiNetcdf.t) : Prop :=
  OwiNetcdf.bounds a = OwiNetcdf.bounds b
  /\ OwiNetcdf.equidistant_wind_grid a = OwiNetcdf.equidistant_wind_grid b
  /\ OwiNetcdf.dim_latitude a = OwiNetcdf.dim_latitude b
  /\ OwiNetcdf.dim_longitude a = OwiNetcdf.dim_longitude b
  /\ OwiNetcdf.is_open a = OwiNetcdf.is_open b.

(** The value of a computation that is known to succeed. *)
Definition ok_value {A : Type} (m : result A) : is_ok m = true -> A :=
  match m as m0 return is_ok m0 = true -> A with
  | Ok a => fun _ => a
  | Raise _ => fun H => False_rect A (Bool.diff_false_true H)
  end.

(** An axis of [n] points [x0 + k * d]. *)
Definition axis (x0 d : Q) (n : Z) : list Q :=
  map (fun k => (x0 + inject_Z k * d)%Q) (Py.range n).


(** ** Sample inputs

    A pressure file of 386 records on a 3 x 3 grid (nine values, two
    data lines per record), a wind file of 3250 samples whose sample
    number [k] holds the value [k] everywhere, and a wind file of only
    ten samples. *)

Module Sample.

Definition header : string :=
  "iLat=   3iLong=   3DX=0.2500DY=0.2500SWLat=10.00000SWLon=-80.0000DT=200508230000".

Definition data_1 : string :=
  " 1013.0000 1012.0000 1011.0000 1010.0000 1009.0000 1008.0000 1007.0000 1006.0000".

Definition data_2 : string := " 1005.0000".

Definition title : string := "Oceanweather WIN/PRE Format".

Definition pre_file : list string :=
  title :: List.concat (repeat [header; data_1; data_2] 386).


Definition sample_of (k : Z) : field :=
  [[inject_Z k; inject_Z k]; [inject_Z k; inject_Z k]].

Definition wind_file : OwiAscii.HblFile :=
  OwiAscii.mk_hbl [(-81)%Q; (-79)%Q] [9%Q; 12%Q] (map sample_of (Py.range 3250)).

Definition short_wind_file : OwiAscii.HblFile :=
  OwiAscii.mk_hbl [(-81)%Q; (-79)%Q] [9%Q; 12%Q] (map sample_of (Py.range 10)).

Definition date : Datetime.t := Datetime.mk 2005 8 23 0 0.

Definition grid : WindGrid.t :=
  Eval vm_compute in
    ok_value (@OwiAscii.get_grid Decimal.externals pre_file 1 3 3) eq_refl.

(** The reader of record [idx], as [OwiAscii.init] builds it. *)
Definition reader (u_file : OwiAscii.HblFile) (lines : list string) (idx : Z)
  : OwiAscii.t :=
  OwiAscii.mk u_file u_file lines idx 3 3 (1 + 3 * idx) date grid.

Definition snapshot : WindData.t :=
  Eval vm_compute in
    ok_value (@OwiAscii.get Decimal.externals (reader wind_file pre_file 384)) eq_refl.


End Sample.

(** A longer pressure file for whole runs of [main]. *)

Module Run.

(** A pressure file of 600 records, enough for the 216 time indices
    from 384 on. *)
Definition pre_file : list string :=
  Sample.title :: List.concat (repeat [Sample.header; Sample.data_1; Sample.data_2] 600).

End Run.

(** * Properties *)

(** ** Indexing, slicing and rounding *)

Lemma getitem_nonneg {A : Type} (l : list A) (i : Z) :
  0 <= i ->
  Py.getitem l i =
  match nth_error l (Z.to_nat i) with
  | Some a => Ok a
  | None => Raise IndexError
  end.
Proof.
  intros Hi. unfold Py.getitem, Py.norm_index.
  destruct (Z.ltb_spec i 0); [lia|].
  destruct (Z.leb_spec 0 i); [|lia]. simpl.
  destruct (Z.ltb_spec i (Z.of_nat (List.length l))); simpl.
  - reflexivity.
  - destruct (nth_error l (Z.to_nat i)) eqn:E; [|reflexivity].
    assert (Hn : nth_error l (Z.to_nat i) <> None) by congruence.
    apply nth_error_Some in Hn. lia.
Qed.

Lemma getitem_in_range {A : Type} (l : list A) (i : Z) :
  0 <= i < Z.of_nat (List.length l) ->
  exists a, Py.getitem l i = Ok a /\ nth_error l (Z.to_nat i) = Some a.
Proof.
  intros Hi. rewrite getitem_nonneg by lia.
  destruct (nth_error l (Z.to_nat i)) eqn:E.
  - eauto.
  - apply nth_error_None in E. lia.
Qed.

Lemma getitem_beyond {A : Type} (l : list A) (i : Z) :
  Z.of_nat (List.length l) <= i -> Py.getitem l i = Raise IndexError.
Proof.
  intros Hi. rewrite getitem_nonneg by lia.
  destruct (nth_error l (Z.to_nat i)) eqn:E; [|reflexivity].
  assert (Hn : nth_error l (Z.to_nat i) <> None) by congruence.
  apply nth_error_Some in Hn. lia.
Qed.

Lemma getitem_from_end {A : Type} (l : list A) (i : Z) :
  i < 0 -> - i <= Z.of_nat (List.length l) ->
  exists a, Py.getitem l i = Ok a
            /\ nth_error l (Z.to_nat (Z.of_nat (List.length l) + i)) = Some a.
Proof.
  intros Hneg Hlen. unfold Py.getitem, Py.norm_index.
  destruct (Z.ltb_spec i 0); [|lia].
  destruct (Z.leb_spec 0 (i + Z.of_nat (List.length l))); [|lia].
  destruct (Z.ltb_spec (i + Z.of_nat (List.length l)) (Z.of_nat (List.length l))); [|lia].
  cbn [andb bind]. rewrite (Z.add_comm i).
  destruct (nth_error l _) as [a|] eqn:Hn.
  - exists a. split; reflexivity.
  - apply nth_error_None in Hn. lia.
Qed.

Lemma getitem_before_start {A : Type} (l : list A) (i : Z) :
  i < 0 -> Z.of_nat (List.length l) < - i -> Py.getitem l i = Raise IndexError.
Proof.
  intros Hneg Hlen. unfold Py.getitem, Py.norm_index.
  destruct (Z.ltb_spec i 0); [|lia].
  destruct (Z.leb_spec 0 (i + Z.of_nat (List.length l))); [lia|].
  reflexivity.
Qed.



Lemma setitem_in_range {A : Type} (l : list A) (i : Z) (a : A) :
  0 <= i < Z.of_nat (List.length l) ->
  Py.setitem l i a = Ok (Py.update l (Z.to_nat i) a).
Proof.
  intros Hi. unfold Py.setitem, Py.norm_index.
  destruct (Z.ltb_spec i 0); [lia|].
  destruct (Z.leb_spec 0 i); [|lia].
  destruct (Z.ltb_spec i (Z.of_nat (List.length l))); [|lia].
  reflexivity.
Qed.

Lemma update_length {A : Type} (l : list A) (j : nat) (a : A) :
  List.length (Py.update l j a) = List.length l.
Proof.
  revert j. induction l as [|h t IH]; intros [|j]; simpl; auto.
Qed.

Lemma update_nth_same {A : Type} (l : list A) (j : nat) (a : A) :
  (j < List.length l)%nat -> nth_error (Py.update l j a) j = Some a.
Proof.
  revert j. induction l as [|h t IH]; intros [|j] H; simpl in *; try lia; auto.
  apply IH. lia.
Qed.

Lemma update_nth_other {A : Type} (l : list A) (j j' : nat) (a : A) :
  j <> j' -> nth_error (Py.update l j a) j' = nth_error l j'.
Proof.
  revert j j'.
  induction l as [|h t IH]; intros [|j] [|j'] H; simpl; try congruence; auto.
Qed.

Lemma Forall_update {A : Type} (P : A -> Prop) (l : list A) (j : nat) (a : A) :
  Forall P l -> P a -> Forall P (Py.update l j a).
Proof.
  intros Hl Ha. revert j.
  induction Hl as [|h t Hh Ht IH]; intros [|j]; simpl; constructor; auto.
Qed.

Lemma range_length (n : Z) : List.length (Py.range n) = Z.to_nat n.
Proof. unfold Py.range. rewrite length_map, length_seq. reflexivity. Qed.


Lemma substring_prefix_idem (m : nat) (s : string) :
  substring 0 m (substring 0 m s) = substring 0 m s.
Proof.
  revert s. induction m as [|m IH]; intros s.
  - destruct s; reflexivity.
  - destruct s as [|c s]; [reflexivity|]. simpl. rewrite IH. reflexivity.
Qed.

Lemma substring_tail_of_field (n m : nat) (s : string) :
  substring 1 m (substring n (S m) s) = substring (S n) m s.
Proof.
  revert s. induction n as [|n IH]; intros s.
  - destruct s as [|c s]; [destruct m; reflexivity|].
    change (substring 0 m (substring 0 m s) = substring 0 m s).
    apply substring_prefix_idem.
  - destruct s as [|c s]; [destruct m; reflexivity|].
    simpl. rewrite <- IH. reflexivity.
Qed.

(** The slice the reader takes is the [m]-th 10-character field without
    its first column. *)
Lemma slice_of_field (line : string) (m : Z) :
  0 <= m ->
  Py.slice (field_text line m) 1 10 = Py.slice line (1 + 10 * m) (10 + 10 * m).
Proof.
  intros Hm. unfold field_text, Py.slice.
  replace (10 * m + 10 - 10 * m) with 10 by lia.
  replace (10 + 10 * m - (1 + 10 * m)) with 9 by lia.
  replace (Z.to_nat (1 + 10 * m)) with (S (Z.to_nat (10 * m))) by lia.
  change (Z.to_nat (10 - 1)) with 9%nat. change (Z.to_nat 1) with 1%nat.
  change (Z.to_nat 10) with 10%nat. change (Z.to_nat 9) with 9%nat.
  apply substring_tail_of_field.
Qed.

Lemma ceil_div8_eq (n : Z) : Py.ceil_div8 n = - (- n / 8).
Proof.
  unfold Py.ceil_div8, Qceiling, Qfloor, Qdiv, Qmult, Qinv, Qopp, inject_Z.
  cbn [Qnum Qden Pos.mul]. rewrite Z.mul_1_r. reflexivity.
Qed.

(** [ceil_div8 n] is the least integer [c] with [n <= 8 * c]. *)
Lemma ceil_div8_spec (n : Z) :
  8 * (Py.ceil_div8 n - 1) < n <= 8 * Py.ceil_div8 n.
Proof.
  rewrite ceil_div8_eq.
  pose proof (Z.div_mod (- n) 8 ltac:(lia)).
  pose proof (Z.mod_pos_bound (- n) 8 ltac:(lia)). lia.
Qed.

Lemma Qltb_true (x y : Q) : Py.Qltb x y = true <-> (x < y)%Q.
Proof.
  unfold Py.Qltb. rewrite negb_true_iff.
  split; intros H.
  - apply Qnot_le_lt. intros L. apply Qle_bool_iff in L. congruence.
  - destruct (Qle_bool y x) eqn:E; [|reflexivity].
    apply Qle_bool_iff in E. lra.
Qed.

Lemma Qltb_false (x y : Q) : Py.Qltb x y = false <-> (y <= x)%Q.
Proof.
  unfold Py.Qltb. rewrite negb_false_iff. apply Qle_bool_iff.
Qed.

Lemma round_of_integer (x : Q) (m : Z) : (x == inject_Z m)%Q -> Py.round x = m.
Proof.
  intros E. unfold Py.round.
  rewrite (Qfloor_comp _ _ E), Qfloor_Z.
  assert (C : ((x - inject_Z m) ?= 1 # 2)%Q = Lt).
  { rewrite <- Qlt_alt. rewrite E. unfold Qminus. rewrite Qplus_opp_r. reflexivity. }
  rewrite C. reflexivity.
Qed.

(** Rounding to two decimals keeps a whole number of hundredths. *)
Lemma round2_hundredths (x : Q) (m : Z) : (x == m # 100)%Q -> (Py.round2 x == x)%Q.
Proof.
  intros E. unfold Py.round2.
  rewrite (round_of_integer (x * 100) m).
  - rewrite E. unfold Qeq, Qdiv, Qmult, Qinv, inject_Z. simpl. lia.
  - rewrite E. unfold Qeq, Qmult, inject_Z. simpl. lia.
Qed.


Lemma concat_length_uniform {A : Type} (n : Z) (p : list (list A)) :
  Forall (fun row => Z.of_nat (List.length row) = n) p ->
  Z.of_nat (List.length (List.concat p)) = Z.of_nat (List.length p) * n.
Proof.
  induction 1 as [|row p Hrow Hp IH]; [reflexivity|].
  cbn [List.concat List.length].
  rewrite length_app, Nat2Z.inj_add, Nat2Z.inj_succ, IH, Hrow. ring.
Qed.

(** A loop raises when its body raises at some element whatever the
    state, and then raises an exception the body can raise. *)
Lemma for_each_raises {A S : Type} (P : exn -> Prop)
    (body : S -> A -> result S) (l : list A) (a : A) :
  In a l ->
  (forall s, exists e, body s a = Raise e) ->
  (forall s b e, In b l -> body s b = Raise e -> P e) ->
  forall s, exists e, for_each body l s = Raise e /\ P e.
Proof.
  intros Hin Hfail Hany. induction l as [|b l IH]; [destruct Hin|].
  intros s. cbn [for_each].
  destruct (body s b) as [s'|e] eqn:Hb; cbn [bind].
  - destruct Hin as [->|Hin].
    + destruct (Hfail s) as (e & He). congruence.
    + apply IH; [exact Hin|].
      intros s0 b0 e0 Hb0. apply Hany. right; exact Hb0.
  - exists e. split; [reflexivity|]. eapply Hany; [left; reflexivity | exact Hb].
Qed.

(** ** The record parser *)

(** C2. The header line of record [i] is line [1 + i * (c + 1)], where
    [c] is the ceiling of [n_lat * n_lon / 8], the number of data lines
    of a record; a 10 x 10 grid has 13 data lines per record, record 0
    starts at line 1 and record 1 at line 15. *)
Theorem locate_header_formula :
  forall n_lat n_lon i : Z,
    (exists c : Z,
        8 * (c - 1) < n_lat * n_lon <= 8 * c
        /\ OwiAscii.get_pre_idx_header_row n_lat n_lon i = 1 + i * (c + 1))
    /\ Py.ceil_div8 (10 * 10) = 13
    /\ OwiAscii.get_pre_idx_header_row 10 10 0 = 1
    /\ OwiAscii.get_pre_idx_header_row 10 10 1 = 15.
Proof.
  intros n_lat n_lon i. split; [|repeat split; reflexivity].
  exists (Py.ceil_div8 (n_lat * n_lon)). split.
  - apply ceil_div8_spec.
  - unfold OwiAscii.get_pre_idx_header_row. ring.
Qed.

(** Storing one value in a nested list of the right shape. *)
Lemma store_entry {A : Type} (n_lat n_lon : Z) (p : list (list A)) (r c : Z) (x : A) :
  shape n_lat n_lon p -> 0 <= r < n_lat -> 0 <= c < n_lon ->
  exists p',
    (row <- Py.getitem p r ;; row' <- Py.setitem row c x ;; Py.setitem p r row') = Ok p'
    /\ shape n_lat n_lon p'
    /\ entry p' r c = Some x
    /\ forall r' c', 0 <= r' -> 0 <= c' -> (r', c') <> (r, c) ->
         entry p' r' c' = entry p r' c'.
Proof.
  intros [Hlen Hrows] Hr Hc.
  destruct (getitem_in_range p r ltac:(lia)) as (row & Hg & Hn).
  rewrite Hg. cbn [bind].
  assert (Hrow : Z.of_nat (List.length row) = n_lon).
  { rewrite Forall_forall in Hrows. apply Hrows. eapply nth_error_In; exact Hn. }
  rewrite setitem_in_range by lia. cbn [bind].
  rewrite setitem_in_range by lia.
  eexists. split; [reflexivity|]. split; [|split].
  - split.
    + rewrite update_length. exact Hlen.
    + apply Forall_update; [exact Hrows|]. rewrite update_length. exact Hrow.
  - unfold entry. rewrite update_nth_same by lia. apply update_nth_same. lia.
  - intros r' c' Hr' Hc' Hne. unfold entry.
    destruct (Z.eq_dec r' r) as [->|Hrr].
    + rewrite update_nth_same by lia. rewrite Hn.
      apply update_nth_other. intros Heq. apply Hne. f_equal. lia.
    + rewrite update_nth_other by lia. reflexivity.
Qed.

Section Reader.
Context {E : Externals}.
Variable self : OwiAscii.t.

Let lines := OwiAscii.pre_file self.
Let hdr := OwiAscii.pre_idx_header_row self.
Let n_lat := OwiAscii.num_lats self.
Let n_lon := OwiAscii.num_lons self.

Lemma position_in_grid (k : Z) :
  0 <= n_lat -> 0 <= n_lon -> 0 <= k < n_lat * n_lon ->
  0 < n_lon /\ 0 <= k / n_lon < n_lat /\ 0 <= k mod n_lon < n_lon.
Proof.
  intros Hlat Hlon Hk.
  assert (Hpos : 0 < n_lon) by nia.
  split; [exact Hpos|]. split.
  - split; [apply Z.div_pos; lia|].
    apply Z.div_lt_upper_bound; [exact Hpos | nia].
  - apply Z.mod_pos_bound. exact Hpos.
Qed.

(** One turn of the loop stores the value of position [i] and leaves
    the other positions as they are. *)
Lemma get_body_step (p : list (list (option Q))) (i : Z) (v : Q) :
  0 <= n_lat -> 0 <= n_lon -> 0 <= i < n_lat * n_lon ->
  shape n_lat n_lon p ->
  record_value lines hdr i = Ok v ->
  exists p',
    OwiAscii.get_body self p i = Ok p'
    /\ shape n_lat n_lon p'
    /\ entry p' (i / n_lon) (i mod n_lon) = Some (Some v)
    /\ forall k, 0 <= k -> k <> i ->
         entry p' (k / n_lon) (k mod n_lon) = entry p (k / n_lon) (k mod n_lon).
Proof.
  intros Hlat Hlon Hi Hp Hv.
  destruct (position_in_grid i Hlat Hlon Hi) as (Hpos & Hr & Hc).
  unfold record_value in Hv. unfold OwiAscii.get_body.
  fold lines hdr n_lon.
  destruct (Py.getitem lines (hdr + 1 + i / 8)) as [line|e]; cbn [bind] in *;
    [|discriminate].
  rewrite slice_of_field in Hv by (apply Z.mod_pos_bound; lia).
  rewrite Hv. cbn [bind].
  destruct (store_entry n_lat n_lon p (i / n_lon) (i mod n_lon) (Some v) Hp Hr Hc)
    as (p' & Hs & Hp' & Hsame & Hother).
  exists p'. repeat split; try assumption; try apply Hp'.
  intros k Hk Hne. apply Hother.
  - apply Z.div_pos; lia.
  - apply Z.mod_pos_bound; lia.
  - intros Heq. injection Heq as Hd Hm. apply Hne.
    rewrite (Z.div_mod k n_lon), (Z.div_mod i n_lon) by lia. congruence.
Qed.

(** The loop invariant: after the indices below [a], the positions
    below [a] are filled. *)
Lemma get_loop (m a : nat) (p : list (list (option Q))) :
  0 <= n_lat -> 0 <= n_lon ->
  Z.of_nat (a + m) <= n_lat * n_lon ->
  shape n_lat n_lon p ->
  (forall k, 0 <= k < Z.of_nat a -> filled self p k) ->
  (forall k, Z.of_nat a <= k < Z.of_nat (a + m) ->
     exists v, record_value lines hdr k = Ok v) ->
  exists p',
    for_each (OwiAscii.get_body self) (map Z.of_nat (seq a m)) p = Ok p'
    /\ shape n_lat n_lon p'
    /\ forall k, 0 <= k < Z.of_nat (a + m) -> filled self p' k.
Proof.
  intros Hlat Hlon. revert a p.
  induction m as [|m IH]; intros a p Hbound Hp Hdone Htodo.
  - exists p. split; [reflexivity|]. split; [exact Hp|].
    intros k Hk. apply Hdone. lia.
  - cbn [seq map for_each].
    destruct (Htodo (Z.of_nat a) ltac:(lia)) as (v & Hv).
    destruct (get_body_step p (Z.of_nat a) v Hlat Hlon ltac:(lia) Hp Hv)
      as (p1 & Hb & Hp1 & Hnew & Hold).
    rewrite Hb. cbn [bind].
    destruct (IH (S a) p1) as (p' & Hf & Hp' & Hall).
    + lia.
    + exact Hp1.
    + intros k Hk. destruct (Z.eq_dec k (Z.of_nat a)) as [->|Hne].
      * exists v. split; assumption.
      * destruct (Hdone k ltac:(lia)) as (w & Hw & He).
        exists w. split; [exact Hw|].
        fold n_lon in He |- *. rewrite Hold by lia. exact He.
    + intros k Hk. apply Htodo. lia.
    + exists p'. split; [exact Hf|]. split; [exact Hp'|].
      intros k Hk. apply Hall. lia.
Qed.

Lemma initial_shape :
  0 <= n_lat -> 0 <= n_lon ->
  shape n_lat n_lon
    (map (fun _ : Z => map (fun _ : Z => @None Q) (Py.range n_lon)) (Py.range n_lat)).
Proof.
  intros Hlat Hlon. split.
  - rewrite length_map, range_length. lia.
  - apply Forall_forall. intros row Hin. apply in_map_iff in Hin.
    destruct Hin as (_ & <- & _). rewrite length_map, range_length. lia.
Qed.


End Reader.




(** ** WindGrid *)

Lemma fold_pick_in (f : Q -> Q -> bool) (t : list Q) (h : Q) :
  In (fold_left (fun m x => if f m x then x else m) t h) (h :: t).
Proof.
  revert h. induction t as [|x t IH]; intros h; simpl.
  - left; reflexivity.
  - destruct (f h x).
    + right. apply IH.
    + destruct (IH h) as [E|E]; [left; exact E | right; right; exact E].
Qed.

Lemma min_in (l : list Q) (m : Q) : Py.min l = Ok m -> In m l.
Proof.
  destruct l as [|h t]; simpl; [discriminate|].
  intros E. injection E as <-.
  apply (fold_pick_in (fun m x => Py.Qltb x m)).
Qed.

Lemma max_in (l : list Q) (m : Q) : Py.max l = Ok m -> In m l.
Proof.
  destruct l as [|h t]; simpl; [discriminate|].
  intros E. injection E as <-.
  apply (fold_pick_in (fun m x => Py.Qltb m x)).
Qed.

(** The grid built from two axes of at least two points each. *)
Lemma init_two (a b : Q) (lon : list Q) (c d : Q) (lat : list Q) :
  exists x1 x2 y1 y2,
    Py.min (Np.where_gt180 (a :: b :: lon)) = Ok x1 /\
    Py.max (Np.where_gt180 (a :: b :: lon)) = Ok x2 /\
    Py.min (c :: d :: lat) = Ok y1 /\
    Py.max (c :: d :: lat) = Ok y2 /\
    WindGrid.init (a :: b :: lon) (c :: d :: lat) =
    Ok (WindGrid.mk
          (Z.of_nat (List.length (a :: b :: lon)))
          (Z.of_nat (List.length (c :: d :: lat)))
          (Py.round2 (b - a)) (Py.round2 (d - c))
          x1 y1 x2 y2
          (fst (Np.meshgrid (Np.where_gt180 (a :: b :: lon)) (c :: d :: lat)))
          (snd (Np.meshgrid (Np.where_gt180 (a :: b :: lon)) (c :: d :: lat)))
          (Np.where_gt180 (a :: b :: lon)) (c :: d :: lat)).
Proof.
  unfold WindGrid.init.
  rewrite !getitem_nonneg by lia.
  change (Z.to_nat 1) with 1%nat. change (Z.to_nat 0) with 0%nat.
  cbn [nth_error bind].
  do 4 eexists. repeat split; reflexivity.
Qed.

Lemma init_short_or_ok (lon lat : list Q) :
  if ((2 <=? List.length lon) && (2 <=? List.length lat))%nat
  then exists g, WindGrid.init lon lat = Ok g
  else WindGrid.init lon lat = Raise IndexError.
Proof.
  destruct lon as [|a [|b lon]]; [reflexivity | reflexivity |].
  destruct lat as [|c [|d lat]].
  - unfold WindGrid.init. rewrite !getitem_nonneg by lia. reflexivity.
  - unfold WindGrid.init. rewrite !getitem_nonneg by lia. reflexivity.
  - cbn [List.length Nat.leb andb].
    destruct (init_two a b lon c d lat) as (x1 & x2 & y1 & y2 & _ & _ & _ & _ & E).
    eexists; exact E.
Qed.

Lemma init_ok_two_points (lon lat : list Q) (g : WindGrid.t) :
  WindGrid.init lon lat = Ok g ->
  exists a b lon' c d lat', lon = a :: b :: lon' /\ lat = c :: d :: lat'.
Proof.
  intros E. pose proof (init_short_or_ok lon lat) as S.
  destruct lon as [|a [|b lon]];
    try (cbn [List.length Nat.leb andb] in S; congruence).
  destruct lat as [|c [|d lat]];
    try (cbn [List.length Nat.leb andb] in S; congruence).
  do 6 eexists. split; reflexivity.
Qed.

(** What a grid holds, in terms of the axes it was built from. *)
Lemma init_fields (lon lat : list Q) (g : WindGrid.t) :
  WindGrid.init lon lat = Ok g ->
  WindGrid.n_longitude g = Z.of_nat (List.length lon)
  /\ WindGrid.n_latitude g = Z.of_nat (List.length lat)
  /\ WindGrid.d_longitude g = Py.round2 (nth 1 lon 0 - nth 0 lon 0)%Q
  /\ WindGrid.d_latitude g = Py.round2 (nth 1 lat 0 - nth 0 lat 0)%Q
  /\ WindGrid.lon1d g = Np.where_gt180 lon
  /\ WindGrid.lat1d g = lat
  /\ WindGrid.lon g = map (fun _ => Np.where_gt180 lon) lat
  /\ In (WindGrid.xll g) (Np.where_gt180 lon)
  /\ In (WindGrid.xur g) (Np.where_gt180 lon).
Proof.
  intros E.
  destruct (init_ok_two_points lon lat g E) as (a & b & lon' & c & d & lat' & -> & ->).
  destruct (init_two a b lon' c d lat') as (x1 & x2 & y1 & y2 & M1 & M2 & _ & _ & E').
  rewrite E in E'. injection E' as ->.
  cbn [WindGrid.n_longitude WindGrid.n_latitude WindGrid.d_longitude
       WindGrid.d_latitude WindGrid.lon1d WindGrid.lat1d WindGrid.lon
       WindGrid.xll WindGrid.xur nth].
  repeat split; try reflexivity.
  - apply min_in; exact M1.
  - apply max_in; exact M2.
Qed.

(** C4, as the code has it.  The constructor raises (an [IndexError])
    exactly when one of the two axes has fewer than two points; every
    other pair of axes, monotonic or not, gives a grid. *)
Theorem grid_fails_iff_short_axis :
  forall lon lat : list Q,
    (WindGrid.init lon lat = Raise IndexError
     <-> (List.length lon < 2 \/ List.length lat < 2)%nat)
    /\ ((exists g, WindGrid.init lon lat = Ok g)
        <-> (2 <= List.length lon /\ 2 <= List.length lat)%nat)
    /\ forall e, WindGrid.init lon lat = Raise e -> e = IndexError.
Proof.
  intros lon lat. pose proof (init_short_or_ok lon lat) as S.
  destruct (Nat.leb_spec 2 (List.length lon)) as [Hlon|Hlon];
    destruct (Nat.leb_spec 2 (List.length lat)) as [Hlat|Hlat];
    cbn [andb] in S;
    [destruct S as [g S]|..]; rewrite S;
    (split; [split; [intros H; try discriminate H; lia
                    | intros H; try reflexivity; lia]
            | split; [split; [intros [g' H]; try discriminate H; lia
                             | intros H; try (eexists; reflexivity); lia]
                     | intros e H; congruence]]).
Qed.

(** C4, as the claim states it, fails: axes that are not strictly
    monotonic (one goes down and up, the other repeats a value) are
    accepted. *)
Lemma nonmonotonic_axes_accepted :
  strictly_monotonic [3; 1; 2]%Q = false
  /\ strictly_monotonic [0; 0]%Q = false
  /\ is_ok (WindGrid.init [3; 1; 2]%Q [0; 0]%Q) = true.
Proof. repeat split; vm_compute; reflexivity. Qed.

(** C7, as the code has it.  For axes of at least two points each the
    grid's point counts are the lengths of the axes, and its steps are
    the first differences rounded to two decimals: the difference itself
    when that is a whole number of hundredths. *)
Theorem grid_counts_and_rounded_steps (lon lat : list Q) :
  (2 <= List.length lon)%nat -> (2 <= List.length lat)%nat ->
  exists g, WindGrid.init lon lat = Ok g /\
    WindGrid.n_longitude g = Z.of_nat (List.length lon) /\
    WindGrid.n_latitude g = Z.of_nat (List.length lat) /\
    WindGrid.d_longitude g = Py.round2 (nth 1 lon 0 - nth 0 lon 0)%Q /\
    WindGrid.d_latitude g = Py.round2 (nth 1 lat 0 - nth 0 lat 0)%Q /\
    (forall m : Z, (nth 1 lon 0 - nth 0 lon 0 == m # 100)%Q ->
       (WindGrid.d_longitude g == nth 1 lon 0 - nth 0 lon 0)%Q) /\
    (forall m : Z, (nth 1 lat 0 - nth 0 lat 0 == m # 100)%Q ->
       (WindGrid.d_latitude g == nth 1 lat 0 - nth 0 lat 0)%Q).
Proof.
  intros Hlon Hlat.
  pose proof (init_short_or_ok lon lat) as S.
  destruct (Nat.leb_spec 2 (List.length lon)); [|lia].
  destruct (Nat.leb_spec 2 (List.length lat)); [|lia].
  cbn [andb] in S. destruct S as [g Hg].
  exists g. split; [exact Hg|].
  destruct (init_fields lon lat g Hg) as (F1 & F2 & F3 & F4 & _).
  repeat split; try assumption.
  - intros m Hm. rewrite F3. eapply round2_hundredths; exact Hm.
  - intros m Hm. rewrite F4. eapply round2_hundredths; exact Hm.
Qed.

Lemma grid_counts_and_rounded_steps_example :
  exists g, WindGrid.init [(-80)%Q; (-79.75)%Q; (-79.5)%Q] [10%Q; 10.25%Q] = Ok g /\
    WindGrid.n_longitude g = 3 /\ WindGrid.n_latitude g = 2 /\
    (WindGrid.d_longitude g == 0.25)%Q /\ (WindGrid.d_latitude g == 0.25)%Q.
Proof.
  destruct (grid_counts_and_rounded_steps
              [(-80)%Q; (-79.75)%Q; (-79.5)%Q] [10%Q; 10.25%Q]
              ltac:(cbn; lia) ltac:(cbn; lia))
    as (g & Hg & Hn & Hm & _ & _ & Hdx & Hdy).
  exists g. split; [exact Hg|]. split; [exact Hn|]. split; [exact Hm|]. split.
  - rewrite (Hdx 25); reflexivity.
  - rewrite (Hdy 25); reflexivity.
Defined.

(** C7, as the claim states it, fails: a first difference of 0.125
    gives a step of 0.12. *)
Lemma step_is_rounded :
  (g <- WindGrid.init [0%Q; 0.125%Q] [0%Q; 1%Q] ;; Ok (WindGrid.d_longitude g))
  = Ok (12 # 100)
  /\ ~ (12 # 100 == 0.125 - 0)%Q.
Proof. split; [vm_compute; reflexivity | intros H; vm_compute in H; discriminate]. Qed.

Lemma stored_longitude_source (lon lat : list Q) (g : WindGrid.t) (v : Q) :
  WindGrid.init lon lat = Ok g -> stored_longitude g v ->
  exists x, In x lon /\ v = (if Py.Qltb 180 x then x - 360 else x)%Q.
Proof.
  intros E S.
  destruct (init_fields _ _ _ E) as (_ & _ & _ & _ & L1 & _ & L2 & Ll & Lu).
  assert (Hin : In v (Np.where_gt180 lon)).
  { destruct S as [S | [(row & Hr & Hv) | [-> | ->]]]; try assumption.
    - rewrite <- L1. exact S.
    - rewrite L2 in Hr. apply in_map_iff in Hr. destruct Hr as (_ & <- & _). exact Hv. }
  unfold Np.where_gt180 in Hin. apply in_map_iff in Hin.
  destruct Hin as (x & <- & Hx). exists x. split; [exact Hx | reflexivity].
Qed.

(** C5, as the code has it.  A stored longitude is the input value
    less 360 when the input exceeds 180, and the input value otherwise.
    So for inputs in [-180, 540) every stored longitude lies in the
    closed interval [-180, 180], and in [-180, 180) when no input is
    exactly 180. *)
Theorem stored_longitudes_range (lon lat : list Q) :
  (2 <= List.length lon)%nat -> (2 <= List.length lat)%nat ->
  (forall x, In x lon -> (-180 <= x /\ x < 540)%Q) ->
  exists g, WindGrid.init lon lat = Ok g /\
    forall v, stored_longitude g v ->
      (exists x, In x lon /\ v = (if Py.Qltb 180 x then x - 360 else x)%Q)
      /\ (-180 <= v /\ v <= 180)%Q
      /\ ((forall x, In x lon -> ~ (x == 180)%Q) -> (v < 180)%Q).
Proof.
  intros Hlon Hlat R.
  pose proof (init_short_or_ok lon lat) as S.
  destruct (Nat.leb_spec 2 (List.length lon)); [|lia].
  destruct (Nat.leb_spec 2 (List.length lat)); [|lia].
  cbn [andb] in S. destruct S as [g Hg].
  exists g. split; [exact Hg|]. intros v Hv.
  destruct (stored_longitude_source _ _ _ _ Hg Hv) as (x & Hx & ->).
  split; [exists x; split; [exact Hx | reflexivity]|].
  specialize (R x Hx).
  destruct (Py.Qltb 180 x) eqn:C.
  - apply Qltb_true in C. repeat split; try lra.
  - apply Qltb_false in C. repeat split; try lra.
    intros N. specialize (N x Hx).
    destruct (Qlt_le_dec x 180) as [L|L]; [exact L|].
    exfalso. apply N. apply Qle_antisym; assumption.
Qed.

Lemma stored_longitudes_range_example :
  exists g, WindGrid.init [179%Q; 181%Q; 359%Q] [0%Q; 1%Q] = Ok g /\
    forall v, stored_longitude g v -> (-180 <= v /\ v < 180)%Q.
Proof.
  destruct (stored_longitudes_range [179%Q; 181%Q; 359%Q] [0%Q; 1%Q]
              ltac:(cbn; lia) ltac:(cbn; lia)) as (g & Hg & Hv).
  - intros x [<- | [<- | [<- | []]]]; split; vm_compute; congruence.
  - exists g. split; [exact Hg|]. intros v Sv.
    destruct (Hv v Sv) as (_ & [Hlo _] & Hlt).
    split; [exact Hlo|]. apply Hlt.
    intros x [<- | [<- | [<- | []]]] H; vm_compute in H; discriminate.
Defined.

(** C5, as the claim states it, fails: an input longitude of exactly
    180 is stored as 180, outside [-180, 180). *)
Lemma longitude_180_kept :
  (g <- WindGrid.init [180%Q; 181%Q] [0%Q; 1%Q] ;;
   Ok (WindGrid.lon1d g, WindGrid.lon g, WindGrid.xur g))
  = Ok ([180%Q; (-179)%Q], [[180%Q; (-179)%Q]; [180%Q; (-179)%Q]], 180%Q)
  /\ ~ (180 < 180)%Q.
Proof. split; [vm_compute; reflexivity | intros H; vm_compute in H; discriminate]. Qed.

(** C9. Called without a grid and with six given parameters of which
    one is zero, [generate_equidistant_grid] raises the runtime error
    "No valid function call provided" and builds nothing. *)
Theorem zero_parameter_rejected (xll yll xur yur dx dy : Q) :
  (xll == 0 \/ yll == 0 \/ xur == 0 \/ yur == 0 \/ dx == 0 \/ dy == 0)%Q ->
  WindGrid.generate_equidistant_grid None
    (Some xll) (Some yll) (Some xur) (Some yur) (Some dx) (Some dy)
  = Raise (RuntimeError "No valid function call provided").
Proof.
  intros Hz. unfold WindGrid.generate_equidistant_grid, Py.truthy.
  destruct (Qeq_bool xll 0) eqn:E1; [reflexivity|].
  destruct (Qeq_bool yll 0) eqn:E2; [reflexivity|].
  destruct (Qeq_bool xur 0) eqn:E3; [reflexivity|].
  destruct (Qeq_bool yur 0) eqn:E4; [reflexivity|].
  destruct (Qeq_bool dx 0) eqn:E5; [reflexivity|].
  destruct (Qeq_bool dy 0) eqn:E6; [reflexivity|].
  exfalso.
  repeat (destruct Hz as [Hz | Hz]; [apply Qeq_bool_iff in Hz; congruence|]).
  apply Qeq_bool_iff in Hz; congruence.
Qed.

(** A box whose lower-left corner lies on the equator. *)
Lemma zero_parameter_rejected_example :
  WindGrid.generate_equidistant_grid None
    (Some (-80)%Q) (Some 0%Q) (Some (-70)%Q) (Some 10%Q) (Some 0.25%Q) (Some 0.25%Q)
  = Raise (RuntimeError "No valid function call provided").
Proof.
  apply (zero_parameter_rejected (-80) 0 (-70) 10 0.25 0.25).
  right; left. reflexivity.
Defined.

(** ** Equidistant grids *)






(** ** The time-series reader *)

(** The sample readers are the objects the constructor builds. *)
Example sample_readers_built :
  @OwiAscii.init Decimal.externals Sample.wind_file Sample.wind_file Sample.pre_file 0
  = Ok (Sample.reader Sample.wind_file Sample.pre_file 0)
  /\ @OwiAscii.init Decimal.externals Sample.wind_file Sample.wind_file Sample.pre_file 383
     = Ok (Sample.reader Sample.wind_file Sample.pre_file 383)
  /\ @OwiAscii.init Decimal.externals Sample.wind_file Sample.wind_file Sample.pre_file 384
     = Ok (Sample.reader Sample.wind_file Sample.pre_file 384).
Proof. repeat split; vm_compute; reflexivity. Qed.

Section Get.
Context {E : Externals}.

(** What a successful [get] has read. *)
Lemma get_ok_inv (self : OwiAscii.t) (wd : WindData.t) :
  OwiAscii.get self = Ok wd ->
  exists prmsl hbl_uvel hbl_vvel,
    OwiAscii.get_prmsl self = Ok prmsl
    /\ Py.getitem (OwiAscii.hbl_var (OwiAscii.u_file self))
         ((OwiAscii.idx self - 384) * 15) = Ok hbl_uvel
    /\ Py.getitem (OwiAscii.hbl_var (OwiAscii.v_file self))
         ((OwiAscii.idx self - 384) * 15) = Ok hbl_vvel
    /\ interp2d (OwiAscii.hbl_lon (OwiAscii.u_file self))
         (OwiAscii.hbl_lat (OwiAscii.u_file self)) hbl_uvel
         (WindGrid.lon1d (OwiAscii.grid self)) (WindGrid.lat1d (OwiAscii.grid self))
       = Ok (WindData.u_velocity wd)
    /\ interp2d (OwiAscii.hbl_lon (OwiAscii.u_file self))
         (OwiAscii.hbl_lat (OwiAscii.u_file self)) hbl_vvel
         (WindGrid.lon1d (OwiAscii.grid self)) (WindGrid.lat1d (OwiAscii.grid self))
       = Ok (WindData.v_velocity wd)
    /\ WindData.pressure wd = prmsl
    /\ WindData.date wd = OwiAscii.date self
    /\ WindData.wind_grid wd = OwiAscii.grid self.
Proof.
  unfold OwiAscii.get. intros H.
  destruct (OwiAscii.get_prmsl self) as [prmsl|] ; cbn [bind] in H; [|discriminate].
  destruct (Py.getitem (OwiAscii.hbl_var (OwiAscii.u_file self)) _) as [hu|];
    cbn [bind] in H; [|discriminate].
  destruct (interp2d _ _ hu _ _) as [ui|] eqn:Hui; cbn [bind] in H; [|discriminate].
  destruct (Py.getitem (OwiAscii.hbl_var (OwiAscii.v_file self)) _) as [hv|];
    cbn [bind] in H; [|discriminate].
  destruct (interp2d _ _ hv _ _) as [vi|] eqn:Hvi; cbn [bind] in H; [|discriminate].
  injection H as <-. exists prmsl, hu, hv. cbn. repeat split; assumption.
Qed.

Lemma getitem_at {A : Type} (l : list A) (i : Z) (a : A) :
  0 <= i -> Py.getitem l i = Ok a -> nth_error l (Z.to_nat i) = Some a.
Proof.
  intros Hi H. rewrite getitem_nonneg in H by exact Hi.
  destruct (nth_error l (Z.to_nat i)); congruence.
Qed.

(** C6. The u and v snapshots [get] returns are interpolated from the
    samples at index [(t - 384) * 15] of the two wind series, [t] being
    the time index of the reader: sample 0 for [t = 384] and sample 15
    for [t = 385]. *)
Theorem wind_sample_index (self : OwiAscii.t) (wd : WindData.t) :
  OwiAscii.get self = Ok wd ->
  exists hbl_uvel hbl_vvel,
    Py.getitem (OwiAscii.hbl_var (OwiAscii.u_file self))
      ((OwiAscii.idx self - 384) * 15) = Ok hbl_uvel
    /\ Py.getitem (OwiAscii.hbl_var (OwiAscii.v_file self))
         ((OwiAscii.idx self - 384) * 15) = Ok hbl_vvel
    /\ interp2d (OwiAscii.hbl_lon (OwiAscii.u_file self))
         (OwiAscii.hbl_lat (OwiAscii.u_file self)) hbl_uvel
         (WindGrid.lon1d (OwiAscii.grid self)) (WindGrid.lat1d (OwiAscii.grid self))
       = Ok (WindData.u_velocity wd)
    /\ interp2d (OwiAscii.hbl_lon (OwiAscii.u_file self))
         (OwiAscii.hbl_lat (OwiAscii.u_file self)) hbl_vvel
         (WindGrid.lon1d (OwiAscii.grid self)) (WindGrid.lat1d (OwiAscii.grid self))
       = Ok (WindData.v_velocity wd)
    /\ (OwiAscii.idx self = 384 ->
        nth_error (OwiAscii.hbl_var (OwiAscii.u_file self)) 0 = Some hbl_uvel
        /\ nth_error (OwiAscii.hbl_var (OwiAscii.v_file self)) 0 = Some hbl_vvel)
    /\ (OwiAscii.idx self = 385 ->
        nth_error (OwiAscii.hbl_var (OwiAscii.u_file self)) 15 = Some hbl_uvel
        /\ nth_error (OwiAscii.hbl_var (OwiAscii.v_file self)) 15 = Some hbl_vvel).
Proof.
  intros H.
  destruct (get_ok_inv self wd H) as (prmsl & hu & hv & _ & Hu & Hv & Iu & Iv & _).
  exists hu, hv.
  split; [exact Hu|]. split; [exact Hv|]. split; [exact Iu|]. split; [exact Iv|].
  split; intros Hidx; rewrite Hidx in Hu, Hv.
  - split; [apply (getitem_at _ 0 hu) | apply (getitem_at _ 0 hv)];
      solve [lia | assumption].
  - split; [apply (getitem_at _ 15 hu) | apply (getitem_at _ 15 hv)];
      solve [lia | assumption].
Qed.

(** C10, as the code has it.  For a time index below 384 the sample
    index is negative, [- back] with [back = (384 - t) * 15].  When the
    u series has fewer than [back] samples [get] raises [IndexError];
    when both series have at least [back] samples, [get] interpolates
    the samples that lie [back] places before the end of each
    series. *)
Theorem early_index_reads_from_end (self : OwiAscii.t) (prmsl : list (list (option Q))) :
  let u := OwiAscii.hbl_var (OwiAscii.u_file self) in
  let v := OwiAscii.hbl_var (OwiAscii.v_file self) in
  let back := (384 - OwiAscii.idx self) * 15 in
  OwiAscii.idx self < 384 ->
  OwiAscii.get_prmsl self = Ok prmsl ->
  (OwiAscii.idx self - 384) * 15 = - back /\ 0 < back
  /\ (Z.of_nat (List.length u) < back -> OwiAscii.get self = Raise IndexError)
  /\ (back <= Z.of_nat (List.length u) -> back <= Z.of_nat (List.length v) ->
      exists hbl_uvel hbl_vvel,
        nth_error u (Z.to_nat (Z.of_nat (List.length u) - back)) = Some hbl_uvel
        /\ nth_error v (Z.to_nat (Z.of_nat (List.length v) - back)) = Some hbl_vvel
        /\ OwiAscii.get self =
           (u_interp <- interp2d (OwiAscii.hbl_lon (OwiAscii.u_file self))
                          (OwiAscii.hbl_lat (OwiAscii.u_file self)) hbl_uvel
                          (WindGrid.lon1d (OwiAscii.grid self))
                          (WindGrid.lat1d (OwiAscii.grid self)) ;;
            v_interp <- interp2d (OwiAscii.hbl_lon (OwiAscii.u_file self))
                          (OwiAscii.hbl_lat (OwiAscii.u_file self)) hbl_vvel
                          (WindGrid.lon1d (OwiAscii.grid self))
                          (WindGrid.lat1d (OwiAscii.grid self)) ;;
            Ok (WindData.mk (OwiAscii.date self) (OwiAscii.grid self)
                  prmsl u_interp v_interp))).
Proof.
  intros u v back Hidx Hp.
  assert (Hback : (OwiAscii.idx self - 384) * 15 = - back) by (unfold back; lia).
  split; [exact Hback|]. split; [unfold back; lia|]. split.
  - intros Hshort. unfold OwiAscii.get. rewrite Hp. cbn [bind].
    fold u. rewrite Hback.
    rewrite getitem_before_start by (unfold back in *; lia). reflexivity.
  - intros Hu Hv.
    destruct (getitem_from_end u (- back) ltac:(unfold back; lia) ltac:(lia))
      as (hu & Hgu & Hnu).
    destruct (getitem_from_end v (- back) ltac:(unfold back; lia) ltac:(lia))
      as (hv & Hgv & Hnv).
    exists hu, hv. split; [exact Hnu|]. split; [exact Hnv|].
    unfold OwiAscii.get. rewrite Hp. cbn [bind]. fold u v. rewrite Hback.
    rewrite Hgu. cbn [bind].
    destruct (interp2d _ _ hu _ _); cbn [bind]; [|reflexivity].
    rewrite Hgv. reflexivity.
Qed.

End Get.

(** Reading time index 384 of the sample files uses sample 0 of the
    wind series. *)
Lemma wind_sample_index_example :
  exists hbl_uvel hbl_vvel,
    nth_error (OwiAscii.hbl_var Sample.wind_file) 0 = Some hbl_uvel
    /\ nth_error (OwiAscii.hbl_var Sample.wind_file) 0 = Some hbl_vvel
    /\ @interp2d Decimal.externals
         (OwiAscii.hbl_lon Sample.wind_file) (OwiAscii.hbl_lat Sample.wind_file)
         hbl_uvel (WindGrid.lon1d Sample.grid) (WindGrid.lat1d Sample.grid)
       = Ok (WindData.u_velocity Sample.snapshot).
Proof.
  destruct (@wind_sample_index Decimal.externals
              (Sample.reader Sample.wind_file Sample.pre_file 384) Sample.snapshot)
    as (hu & hv & _ & _ & Iu & _ & H384 & _).
  - vm_compute. reflexivity.
  - destruct (H384 eq_refl) as [Hu Hv].
    exists hu, hv. split; [exact Hu|]. split; [exact Hv|]. exact Iu.
Defined.

(** At time index 383 the sample files give the sample 15 places
    before the end of the 3250 samples. *)
Lemma early_index_reads_from_end_example :
  exists hbl_uvel,
    nth_error (OwiAscii.hbl_var Sample.wind_file) 3235 = Some hbl_uvel
    /\ hbl_uvel = Sample.sample_of 3235.
Proof.
  destruct (@early_index_reads_from_end Decimal.externals
              (Sample.reader Sample.wind_file Sample.pre_file 383)
              (WindData.pressure Sample.snapshot))
    as (_ & _ & _ & Hend).
  - reflexivity.
  - vm_compute. reflexivity.
  - destruct Hend as (hu & hv & Hu & _ & _).
    + vm_compute. discriminate.
    + vm_compute. discriminate.
    + exists hu. split.
      * vm_compute in Hu. vm_compute. exact Hu.
      * vm_compute in Hu. injection Hu as <-. vm_compute. reflexivity.
Defined.

(** C10, as the claim states it, fails: with the 3250 wind samples the
    script counts on, time index 0 asks for sample -5760 and the read
    raises [IndexError]; so does time index 383 on a series of ten
    samples. *)
Lemma early_index_out_of_range :
  (0 - 384) * 15 = -5760
  /\ @OwiAscii.get Decimal.externals
       (Sample.reader Sample.wind_file Sample.pre_file 0) = Raise IndexError
  /\ @OwiAscii.get Decimal.externals
       (Sample.reader Sample.short_wind_file Sample.pre_file 383) = Raise IndexError.
Proof. repeat split; vm_compute; reflexivity. Qed.

(** ** The output writer *)

Section Writer.
Context {E : Externals}.



(** An open container takes a snapshot at any index that is not
    negative. *)
Lemma append_any_index (self : OwiNetcdf.t) (idx : Z) (wd : WindData.t) :
  OwiNetcdf.is_open self = true -> 0 <= idx -> writable self wd ->
  exists self',
    OwiNetcdf.append self idx wd = Ok self'
    /\ OwiNetcdf.dim_time self' = Z.max (OwiNetcdf.dim_time self) (idx + 1)
    /\ same_schema self self'.
Proof.
  intros Ho Hi (press & u & v & p & Hf & Hp & C1 & C2 & C3).
  unfold OwiNetcdf.append. rewrite Hf. cbn [bind]. rewrite Ho. cbn [negb].
  unfold Nc.record_index. destruct (Z.leb_spec 0 idx); [|lia]. cbn [bind].
  rewrite Hp. cbn [bind]. rewrite C1, C2, C3. cbn [andb].
  eexists. split; [reflexivity|].
  cbn [OwiNetcdf.dim_time]. split; [rewrite Z2Nat.id by lia; reflexivity|].
  repeat split; try reflexivity. exact Ho.
Qed.

(** A container is open and empty when it has just been created. *)
Lemma init_fresh (g : WindGrid.t) (b : option (list Q)) (nc : OwiNetcdf.t) :
  OwiNetcdf.init g b = Ok nc ->
  OwiNetcdf.is_open nc = true /\ OwiNetcdf.dim_time nc = 0.
Proof.
  unfold OwiNetcdf.init. intros H.
  match type of H with bind ?m _ = _ => destruct m as [eq|e] end;
    cbn [bind] in H; [|discriminate].
  injection H as <-. split; reflexivity.
Qed.


End Writer.




(** * Further properties *)

(** ** Corners and meshes of a grid *)

Lemma fold_min_le (t : list Q) (h : Q) :
  let m := fold_left (fun m x => if Py.Qltb x m then x else m) t h in
  (m <= h)%Q /\ forall x, In x t -> (m <= x)%Q.
Proof.
  revert h. induction t as [|y t IH]; intros h; cbn [fold_left].
  - split; [apply Qle_refl | intros x []].
  - destruct (Py.Qltb y h) eqn:C.
    + apply Qltb_true in C. destruct (IH y) as [H1 H2]. split; [lra|].
      intros x [<-|Hx]; [exact H1 | apply H2; exact Hx].
    + apply Qltb_false in C. destruct (IH h) as [H1 H2]. split; [exact H1|].
      intros x [<-|Hx]; [lra | apply H2; exact Hx].
Qed.

Lemma fold_max_ge (t : list Q) (h : Q) :
  let m := fold_left (fun m x => if Py.Qltb m x then x else m) t h in
  (h <= m)%Q /\ forall x, In x t -> (x <= m)%Q.
Proof.
  revert h. induction t as [|y t IH]; intros h; cbn [fold_left].
  - split; [apply Qle_refl | intros x []].
  - destruct (Py.Qltb h y) eqn:C.
    + apply Qltb_true in C. destruct (IH y) as [H1 H2]. split; [lra|].
      intros x [<-|Hx]; [exact H1 | apply H2; exact Hx].
    + apply Qltb_false in C. destruct (IH h) as [H1 H2]. split; [exact H1|].
      intros x [<-|Hx]; [lra | apply H2; exact Hx].
Qed.

Lemma min_le (l : list Q) (m : Q) :
  Py.min l = Ok m -> forall x, In x l -> (m <= x)%Q.
Proof.
  destruct l as [|h t]; simpl; [discriminate|].
  intros E. injection E as <-.
  destruct (fold_min_le t h) as [H1 H2].
  intros x [<-|Hx]; [exact H1 | apply H2; exact Hx].
Qed.

Lemma max_ge (l : list Q) (m : Q) :
  Py.max l = Ok m -> forall x, In x l -> (x <= m)%Q.
Proof.
  destruct l as [|h t]; simpl; [discriminate|].
  intros E. injection E as <-.
  destruct (fold_max_ge t h) as [H1 H2].
  intros x [<-|Hx]; [exact H1 | apply H2; exact Hx].
Qed.

(** The four corners of a grid are the extremes of its axes. *)
Lemma init_corners (lon lat : list Q) (g : WindGrid.t) :
  WindGrid.init lon lat = Ok g ->
  Py.min (WindGrid.lon1d g) = Ok (WindGrid.xll g)
  /\ Py.max (WindGrid.lon1d g) = Ok (WindGrid.xur g)
  /\ Py.min (WindGrid.lat1d g) = Ok (WindGrid.yll g)
  /\ Py.max (WindGrid.lat1d g) = Ok (WindGrid.yur g)
  /\ WindGrid.lat g = map (fun y => map (fun _ => y) (WindGrid.lon1d g)) (WindGrid.lat1d g)
  /\ WindGrid.lon g = map (fun _ => WindGrid.lon1d g) (WindGrid.lat1d g)
  /\ WindGrid.n_longitude g = Z.of_nat (List.length (WindGrid.lon1d g))
  /\ WindGrid.n_latitude g = Z.of_nat (List.length (WindGrid.lat1d g)).
Proof.
  intros E.
  destruct (init_ok_two_points lon lat g E) as (a & b & lon' & c & d & lat' & -> & ->).
  destruct (init_two a b lon' c d lat') as (x1 & x2 & y1 & y2 & M1 & M2 & M3 & M4 & E').
  rewrite E in E'. injection E' as ->.
  cbn [WindGrid.lon1d WindGrid.lat1d WindGrid.xll WindGrid.xur WindGrid.yll
       WindGrid.yur WindGrid.lat WindGrid.lon WindGrid.n_longitude WindGrid.n_latitude].
  repeat split; try assumption; try reflexivity.
  unfold Np.where_gt180. cbn [List.length map]. rewrite length_map. reflexivity.
Qed.

(** X1. The corners of a grid are the extremes of its stored axes: the
    lower-left and upper-right longitude and latitude are themselves
    points of the stored axes, and every stored longitude (of the axis
    or of the mesh) and every stored latitude lies between them. *)
Theorem grid_corners_are_extremes (lon lat : list Q) (g : WindGrid.t) :
  WindGrid.init lon lat = Ok g ->
  In (WindGrid.xll g) (WindGrid.lon1d g) /\ In (WindGrid.xur g) (WindGrid.lon1d g)
  /\ In (WindGrid.yll g) (WindGrid.lat1d g) /\ In (WindGrid.yur g) (WindGrid.lat1d g)
  /\ (forall v, stored_longitude g v -> (WindGrid.xll g <= v /\ v <= WindGrid.xur g)%Q)
  /\ (forall v, In v (WindGrid.lat1d g) \/ (exists row, In row (WindGrid.lat g) /\ In v row) ->
        (WindGrid.yll g <= v /\ v <= WindGrid.yur g)%Q).
Proof.
  intros E.
  destruct (init_corners lon lat g E) as (M1 & M2 & M3 & M4 & Hlat & Hlon & _).
  split; [apply min_in; exact M1|]. split; [apply max_in; exact M2|].
  split; [apply min_in; exact M3|]. split; [apply max_in; exact M4|].
  split.
  - intros v Sv.
    assert (Hin : In v (WindGrid.lon1d g)).
    { destruct Sv as [S | [(row & Hr & Hv) | [-> | ->]]].
      - exact S.
      - rewrite Hlon in Hr. apply in_map_iff in Hr.
        destruct Hr as (_ & <- & _). exact Hv.
      - apply min_in; exact M1.
      - apply max_in; exact M2. }
    split; [eapply min_le; eassumption | eapply max_ge; eassumption].
  - intros v Hv.
    assert (Hin : In v (WindGrid.lat1d g)).
    { destruct Hv as [S | (row & Hr & Hv)]; [exact S|].
      rewrite Hlat in Hr. apply in_map_iff in Hr.
      destruct Hr as (y & <- & Hy). apply in_map_iff in Hv.
      destruct Hv as (_ & <- & _). exact Hy. }
    split; [eapply min_le; eassumption | eapply max_ge; eassumption].
Qed.

Lemma grid_corners_are_extremes_example :
  exists g, WindGrid.init [350%Q; 10%Q; 190%Q] [5%Q; (-5)%Q] = Ok g
    /\ (forall v, stored_longitude g v -> (WindGrid.xll g <= v /\ v <= WindGrid.xur g)%Q)
    /\ WindGrid.xll g = (190 - 360)%Q /\ WindGrid.yur g = 5%Q.
Proof.
  pose proof (init_short_or_ok [350%Q; 10%Q; 190%Q] [5%Q; (-5)%Q]) as S.
  cbn [List.length Nat.leb andb] in S. destruct S as [g Hg].
  exists g. split; [exact Hg|].
  destruct (grid_corners_are_extremes _ _ g Hg) as (_ & _ & _ & _ & Hb & _).
  split; [exact Hb|].
  vm_compute in Hg. injection Hg as <-. split; reflexivity.
Defined.

Lemma conforms_mesh (rows : list Q) (cols : list Q) (f : Q -> list Q) :
  (forall y, List.length (f y) = List.length cols) ->
  Nc.conforms (map f rows) (Z.of_nat (List.length rows)) (Z.of_nat (List.length cols)) = true.
Proof.
  intros Hf. unfold Nc.conforms. rewrite length_map, Z.eqb_refl. cbn [andb].
  apply forallb_forall. intros r Hr. apply in_map_iff in Hr.
  destruct Hr as (y & <- & _). rewrite Hf. apply Z.eqb_refl.
Qed.

Lemma entry_mesh (rows cols : list Q) (f : Q -> list Q) (j i : nat) (y : Q) :
  nth_error rows j = Some y ->
  entry (map f rows) (Z.of_nat j) (Z.of_nat i) = nth_error (f y) i.
Proof.
  intros Hy. unfold entry. rewrite !Nat2Z.id, nth_error_map, Hy. reflexivity.
Qed.

(** X2. The two meshes of a grid have one row per latitude and one
    column per longitude, so [n_latitude * n_longitude] entries in all;
    entry [(j, i)] of the longitude mesh is the [i]-th stored longitude
    and entry [(j, i)] of the latitude mesh is the [j]-th latitude. *)
Theorem grid_mesh_shape (lon lat : list Q) (g : WindGrid.t) :
  WindGrid.init lon lat = Ok g ->
  Nc.conforms (WindGrid.lon g) (WindGrid.n_latitude g) (WindGrid.n_longitude g) = true
  /\ Nc.conforms (WindGrid.lat g) (WindGrid.n_latitude g) (WindGrid.n_longitude g) = true
  /\ Z.of_nat (List.length (List.concat (WindGrid.lon g)))
     = WindGrid.n_latitude g * WindGrid.n_longitude g
  /\ forall (j i : nat) (x y : Q),
       nth_error (WindGrid.lat1d g) j = Some y ->
       nth_error (WindGrid.lon1d g) i = Some x ->
       entry (WindGrid.lon g) (Z.of_nat j) (Z.of_nat i) = Some x
       /\ entry (WindGrid.lat g) (Z.of_nat j) (Z.of_nat i) = Some y.
Proof.
  intros E.
  destruct (init_corners lon lat g E) as (_ & _ & _ & _ & Hlat & Hlon & Nx & Ny).
  rewrite Hlat, Hlon, Nx, Ny.
  assert (C1 : Nc.conforms (map (fun _ : Q => WindGrid.lon1d g) (WindGrid.lat1d g))
                 (Z.of_nat (List.length (WindGrid.lat1d g)))
                 (Z.of_nat (List.length (WindGrid.lon1d g))) = true).
  { apply conforms_mesh. reflexivity. }
  split; [exact C1|]. split; [|split].
  - apply conforms_mesh. intros y. apply length_map.
  - rewrite (concat_length_uniform (Z.of_nat (List.length (WindGrid.lon1d g)))).
    + rewrite length_map. reflexivity.
    + apply Forall_forall. intros r Hr. apply in_map_iff in Hr.
      destruct Hr as (_ & <- & _). reflexivity.
  - intros j i x y Hy Hx. split.
    + rewrite (entry_mesh _ (WindGrid.lon1d g) _ j i y Hy). exact Hx.
    + rewrite (entry_mesh _ (WindGrid.lon1d g) _ j i y Hy).
      rewrite nth_error_map, Hx. reflexivity.
Qed.

Lemma grid_mesh_shape_example :
  exists g, WindGrid.init [0%Q; 1%Q; 2%Q] [5%Q; 6%Q] = Ok g
    /\ Z.of_nat (List.length (List.concat (WindGrid.lon g))) = 6
    /\ entry (WindGrid.lon g) 1 2 = Some 2%Q
    /\ entry (WindGrid.lat g) 1 2 = Some 6%Q.
Proof.
  pose proof (init_short_or_ok [0%Q; 1%Q; 2%Q] [5%Q; 6%Q]) as S.
  cbn [List.length Nat.leb andb] in S. destruct S as [g Hg].
  exists g. split; [exact Hg|].
  destruct (grid_mesh_shape _ _ g Hg) as (_ & _ & Hn & He).
  assert (Hv : g = ok_value (WindGrid.init [0%Q; 1%Q; 2%Q] [5%Q; 6%Q]) eq_refl).
  { vm_compute in Hg. injection Hg as <-. vm_compute. reflexivity. }
  split.
  - rewrite Hn. rewrite Hv. reflexivity.
  - apply (He 1%nat 2%nat 2%Q 6%Q); rewrite Hv; reflexivity.
Defined.

(** ** The grid of a record *)



Lemma range_nth (n k : Z) :
  0 <= k < n -> nth_error (Py.range n) (Z.to_nat k) = Some k.
Proof.
  intros Hk. unfold Py.range. rewrite nth_error_map, nth_error_seq.
  destruct (Nat.ltb_spec (Z.to_nat k) (Z.to_nat n)); [|lia].
  simpl. f_equal. lia.
Qed.

(** The points of [linspace]: [num] of them, the [k]-th one [k] steps
    from the start. *)
Lemma linspace_points (start step : Q) (num : Z) :
  0 <= num ->
  exists pts,
    Np.linspace start (start + inject_Z (num - 1) * step)%Q num = Ok pts
    /\ Z.of_nat (List.length pts) = num
    /\ forall k, 0 <= k < num ->
         exists c, nth_error pts (Z.to_nat k) = Some c
                   /\ (c == start + inject_Z k * step)%Q.
Proof.
  intros Hn. unfold Np.linspace.
  destruct (Z.ltb_spec num 0); [lia|].
  eexists. split; [reflexivity|]. split.
  { rewrite length_map, range_length. lia. }
  intros k Hk. rewrite nth_error_map, (range_nth num k Hk). cbn [option_map].
  eexists. split; [reflexivity|].
  destruct (Z.ltb_spec 0 k) as [Hpos|Hz]; cbn [andb].
  - destruct (Z.eqb_spec k (num - 1)) as [->|Hne]; [reflexivity|].
    assert (Hd : ~ (inject_Z (num - 1) == 0)%Q).
    { intros Hq. unfold Qeq, inject_Z in Hq. simpl in Hq. lia. }
    field. exact Hd.
  - assert (k = 0) by lia. subst k. change (inject_Z 0) with 0%Q.
    rewrite !Qmult_0_l. reflexivity.
Qed.

Section Grid.
Context {E : Externals}.

Lemma get_grid_unfold (lines : list string) (hdr n_lat n_lon : Z) (line : string)
    (lat_step lon_step sw_lat sw_lon : Q) :
  Py.getitem lines hdr = Ok line ->
  py_float (Py.slice line 31 37) = Ok lat_step ->
  py_float (Py.slice line 22 28) = Ok lon_step ->
  py_float (Py.slice line 43 51) = Ok sw_lat ->
  py_float (Py.slice line 57 65) = Ok sw_lon ->
  OwiAscii.get_grid lines hdr n_lat n_lon =
  (lat <- Np.linspace sw_lat (sw_lat + inject_Z (n_lat - 1) * lat_step)%Q n_lat ;;
   lon <- Np.linspace sw_lon (sw_lon + inject_Z (n_lon - 1) * lon_step)%Q n_lon ;;
   WindGrid.init lon lat).
Proof.
  intros Hl H1 H2 H3 H4. unfold OwiAscii.get_grid.
  rewrite Hl. cbn [bind]. rewrite H1. cbn [bind]. rewrite H2. cbn [bind].
  rewrite H3. cbn [bind]. rewrite H4. reflexivity.
Qed.


(** X4. A pressure file whose header announces fewer than two
    latitudes or fewer than two longitudes has no grid: [__get_grid]
    raises, a [ValueError] from [linspace] when a count is negative and
    an [IndexError] from the grid constructor otherwise. *)
Theorem single_row_grid_rejected (lines : list string) (hdr n_lat n_lon : Z)
    (line : string) (lat_step lon_step sw_lat sw_lon : Q) :
  Py.getitem lines hdr = Ok line ->
  py_float (Py.slice line 31 37) = Ok lat_step ->
  py_float (Py.slice line 22 28) = Ok lon_step ->
  py_float (Py.slice line 43 51) = Ok sw_lat ->
  py_float (Py.slice line 57 65) = Ok sw_lon ->
  n_lat < 2 \/ n_lon < 2 ->
  OwiAscii.get_grid lines hdr n_lat n_lon =
  Raise (if (n_lat <? 0) || (n_lon <? 0) then ValueError else IndexError).
Proof.
  intros Hl H1 H2 H3 H4 Hshort.
  rewrite (get_grid_unfold lines hdr n_lat n_lon line _ _ _ _ Hl H1 H2 H3 H4).
  destruct (Z.ltb_spec n_lat 0) as [Hneg|Hnn]; cbn [orb].
  { unfold Np.linspace at 1. destruct (Z.ltb_spec n_lat 0); [reflexivity | lia]. }
  destruct (linspace_points sw_lat lat_step n_lat Hnn) as (lat & Elat & Llat & _).
  rewrite Elat. cbn [bind].
  destruct (Z.ltb_spec n_lon 0) as [Hneg|Hnn'].
  { unfold Np.linspace. destruct (Z.ltb_spec n_lon 0); [reflexivity | lia]. }
  destruct (linspace_points sw_lon lon_step n_lon Hnn') as (lon & Elon & Llon & _).
  rewrite Elon. cbn [bind].
  pose proof (init_short_or_ok lon lat) as S.
  destruct (Nat.leb_spec 2 (List.length lon));
    destruct (Nat.leb_spec 2 (List.length lat)); cbn [andb] in S; try exact S.
  lia.
Qed.

(** X5. The reader cannot be constructed past the end of the pressure
    file: with fewer than two lines the counts cannot be read, and with
    a time index whose header row is at or beyond the number of lines
    the date cannot be read; both raise an [IndexError]. *)
Theorem reader_beyond_file (u_file v_file : OwiAscii.HblFile) (lines : list string)
    (idx : Z) :
  ((List.length lines < 2)%nat ->
   OwiAscii.init u_file v_file lines idx = Raise IndexError)
  /\ forall n_lat n_lon,
       OwiAscii.get_num_lats lines = Ok n_lat ->
       OwiAscii.get_num_lons lines = Ok n_lon ->
       0 <= idx -> 0 <= n_lat * n_lon ->
       Z.of_nat (List.length lines) <= 1 + idx * (Py.ceil_div8 (n_lat * n_lon) + 1) ->
       OwiAscii.init u_file v_file lines idx = Raise IndexError.
Proof.
  split.
  - intros Hshort. unfold OwiAscii.init, OwiAscii.get_num_lats.
    rewrite getitem_beyond by lia. reflexivity.
  - intros n_lat n_lon Hlat Hlon Hidx Hn Hlen.
    unfold OwiAscii.init. rewrite Hlat, Hlon. cbn [bind].
    unfold OwiAscii.get_date, OwiAscii.get_pre_idx_header_row.
    rewrite getitem_beyond; [reflexivity|].
    pose proof (ceil_div8_spec (n_lat * n_lon)). nia.
Qed.

End Grid.


Lemma single_row_grid_rejected_example :
  @OwiAscii.get_grid Decimal.externals Sample.pre_file 1 1 3 = Raise IndexError.
Proof.
  apply (@single_row_grid_rejected Decimal.externals Sample.pre_file 1 1 3
           Sample.header (1 # 4) (1 # 4) 10 (-80));
    try (vm_compute; reflexivity).
  left. lia.
Defined.

Lemma reader_beyond_file_example :
  @OwiAscii.init Decimal.externals Sample.wind_file Sample.wind_file
    Sample.pre_file 386 = Raise IndexError
  /\ @OwiAscii.init Decimal.externals Sample.wind_file Sample.wind_file
       [Sample.title] 0 = Raise IndexError.
Proof.
  split.
  - apply (proj2 (@reader_beyond_file Decimal.externals Sample.wind_file
                    Sample.wind_file Sample.pre_file 386) 3 3);
      try (vm_compute; reflexivity); try lia.
    vm_compute. discriminate.
  - apply (proj1 (@reader_beyond_file Decimal.externals Sample.wind_file
                    Sample.wind_file [Sample.title] 0)).
    cbn. lia.
Defined.

(** ** Regridding a grid from itself *)











(** ** Records of the container *)






Section Records.
Context {E : Externals}.





End Records.



(** ** Construction of the container *)

Lemma truthy_false (x : Q) : Py.truthy x = false <-> (x == 0)%Q.
Proof.
  unfold Py.truthy. rewrite negb_false_iff. apply Qeq_bool_iff.
Qed.

(** The test of the six keyword arguments, as one boolean. *)
Lemma generate_from_parameters (x1 y1 x2 y2 dx dy : Q) :
  WindGrid.generate_equidistant_grid None
    (Some x1) (Some y1) (Some x2) (Some y2) (Some dx) (Some dy)
  = if Py.truthy x1 && Py.truthy y1 && Py.truthy x2
       && Py.truthy y2 && Py.truthy dx && Py.truthy dy
    then WindGrid.generate_equidistant_grid_from_corners x1 y1 x2 y2 dx dy
    else Raise (RuntimeError "No valid function call provided").
Proof. reflexivity. Qed.

Lemma init_with_six (g : WindGrid.t) (b0 b1 b2 b3 b4 b5 : Q) (rest : list Q) :
  OwiNetcdf.init g (Some (b0 :: b1 :: b2 :: b3 :: b4 :: b5 :: rest))
  = (eq <- WindGrid.generate_equidistant_grid None
             (Some b0) (Some b1) (Some b2) (Some b3) (Some b4) (Some b5) ;;
     Ok (OwiNetcdf.mk g (Some (b0 :: b1 :: b2 :: b3 :: b4 :: b5 :: rest)) (Some eq)
           0 (WindGrid.n_longitude eq) (WindGrid.n_latitude eq)
           [] (WindGrid.lon eq) (WindGrid.lat eq) [] [] [] true)).
Proof.
  unfold OwiNetcdf.init. rewrite !getitem_nonneg by lia.
  change (Z.to_nat 0) with 0%nat. change (Z.to_nat 1) with 1%nat.
  change (Z.to_nat 2) with 2%nat. change (Z.to_nat 3) with 3%nat.
  change (Z.to_nat 4) with 4%nat. change (Z.to_nat 5) with 5%nat.
  cbn [nth_error bind].
  destruct (WindGrid.generate_equidistant_grid _ _ _ _ _ _ _); reflexivity.
Qed.

(** X8. A bounding box with a zero among its six values is refused
    with the [RuntimeError] "No valid function call provided" (zero is
    false in the test of the six keyword arguments), and a box of one to
    five values raises an [IndexError]. *)
Theorem container_rejects_bad_bounds (g : WindGrid.t) :
  (forall (b0 b1 b2 b3 b4 b5 : Q) (rest : list Q),
      (b0 == 0 \/ b1 == 0 \/ b2 == 0 \/ b3 == 0 \/ b4 == 0 \/ b5 == 0)%Q ->
      OwiNetcdf.init g (Some (b0 :: b1 :: b2 :: b3 :: b4 :: b5 :: rest))
      = Raise (RuntimeError "No valid function call provided"))
  /\ (forall l : list Q,
        (0 < List.length l < 6)%nat ->
        OwiNetcdf.init g (Some l) = Raise IndexError).
Proof.
  split.
  - intros b0 b1 b2 b3 b4 b5 rest Hz.
    rewrite init_with_six, generate_from_parameters.
    assert (Hf : Py.truthy b0 && Py.truthy b1 && Py.truthy b2
                 && Py.truthy b3 && Py.truthy b4 && Py.truthy b5 = false).
    { repeat rewrite andb_false_iff.
      destruct Hz as [H|[H|[H|[H|[H|H]]]]]; apply truthy_false in H; tauto. }
    rewrite Hf. reflexivity.
  - intros l Hl.
    destruct l as [|a [|b [|c [|d [|e [|f l]]]]]]; cbn [List.length] in Hl; try lia;
      unfold OwiNetcdf.init; rewrite !getitem_nonneg by lia; reflexivity.
Qed.

Lemma container_rejects_bad_bounds_example :
  OwiNetcdf.init Sample.grid (Some [(-80)%Q; 0%Q; (-70)%Q; 10%Q; 0.25%Q; 0.25%Q])
  = Raise (RuntimeError "No valid function call provided")
  /\ OwiNetcdf.init Sample.grid (Some [(-80)%Q; 5%Q; (-70)%Q]) = Raise IndexError.
Proof.
  split.
  - apply (proj1 (container_rejects_bad_bounds Sample.grid)).
    right; left. reflexivity.
  - apply (proj2 (container_rejects_bad_bounds Sample.grid)). cbn. lia.
Defined.


(** The meshes of a grid have the shape its two counts give. *)
Lemma mesh_conforms (lon lat : list Q) (g : WindGrid.t) :
  WindGrid.init lon lat = Ok g ->
  Nc.conforms (WindGrid.lon g) (WindGrid.n_latitude g) (WindGrid.n_longitude g) = true
  /\ Nc.conforms (WindGrid.lat g) (WindGrid.n_latitude g) (WindGrid.n_longitude g) = true.
Proof.
  intros E.
  destruct (init_corners lon lat g E) as (_ & _ & _ & _ & Hlat & Hlon & Nx & Ny).
  rewrite Hlat, Hlon, Nx, Ny. split.
  - apply conforms_mesh. reflexivity.
  - apply conforms_mesh. intros y. apply length_map.
Qed.

(** X9. A container made without a bounding box ([None], or an empty
    list) is open and empty, its dimensions are the lengths of the two
    axes of the grid it was given, and its two coordinate variables
    have exactly that shape. *)
Theorem container_on_native_grid (lon lat : list Q) (g : WindGrid.t)
    (b : option (list Q)) :
  WindGrid.init lon lat = Ok g ->
  OwiNetcdf.has_bounds b = false ->
  exists nc,
    OwiNetcdf.init g b = Ok nc
    /\ OwiNetcdf.is_open nc = true /\ OwiNetcdf.dim_time nc = 0
    /\ OwiNetcdf.var_time nc = []
    /\ OwiNetcdf.dim_longitude nc = Z.of_nat (List.length lon)
    /\ OwiNetcdf.dim_latitude nc = Z.of_nat (List.length lat)
    /\ Nc.conforms (OwiNetcdf.var_lon nc)
         (OwiNetcdf.dim_latitude nc) (OwiNetcdf.dim_longitude nc) = true
    /\ Nc.conforms (OwiNetcdf.var_lat nc)
         (OwiNetcdf.dim_latitude nc) (OwiNetcdf.dim_longitude nc) = true.
Proof.
  intros Hg Hb.
  destruct (init_fields lon lat g Hg) as (F1 & F2 & _).
  destruct (mesh_conforms lon lat g Hg) as (C1 & C2).
  assert (Hi : OwiNetcdf.init g b
               = Ok (OwiNetcdf.mk g b None 0 (WindGrid.n_longitude g)
                       (WindGrid.n_latitude g) [] (WindGrid.lon g) (WindGrid.lat g)
                       [] [] [] true)).
  { destruct b as [[|x l]|]; [reflexivity | discriminate Hb | reflexivity]. }
  eexists. split; [exact Hi|].
  cbn [OwiNetcdf.is_open OwiNetcdf.dim_time OwiNetcdf.var_time OwiNetcdf.dim_longitude
       OwiNetcdf.dim_latitude OwiNetcdf.var_lon OwiNetcdf.var_lat].
  repeat split; assumption.
Qed.

Lemma container_on_native_grid_example :
  exists nc,
    OwiNetcdf.init Sample.grid (Some []) = Ok nc
    /\ OwiNetcdf.dim_longitude nc = 3 /\ OwiNetcdf.dim_latitude nc = 3
    /\ OwiNetcdf.dim_time nc = 0.
Proof.
  destruct (container_on_native_grid
              [(-640 # 8)%Q; (-638 # 8)%Q; (-318 # 4)%Q] [(80 # 8)%Q; (82 # 8)%Q; (42 # 4)%Q]
              Sample.grid (Some []))
    as (nc & Hnc & _ & Ht & _ & Hx & Hy & _).
  - vm_compute. reflexivity.
  - reflexivity.
  - exists nc. repeat split; assumption.
Defined.



(** ** Completeness of the pressure field *)

(** A loop that ends has run its body on every element. *)
Lemma for_each_ok_all {A S : Type} (body : S -> A -> result S) (l : list A) (s s' : S) :
  for_each body l s = Ok s' ->
  forall a, In a l -> exists s1 s2, body s1 a = Ok s2.
Proof.
  revert s. induction l as [|b l IH]; intros s H a Hin; [destruct Hin|].
  cbn [for_each] in H.
  destruct (body s b) as [s1|] eqn:Hb; cbn [bind] in H; [|discriminate].
  destruct Hin as [<-|Hin].
  - exists s, s1. exact Hb.
  - apply (IH s1 H a Hin).
Qed.

Lemma asarray_row_filled (r : list (option Q)) :
  (forall c, (c < List.length r)%nat -> exists v, nth_error r c = Some (Some v)) ->
  exists a, asarray_row r = Ok a
            /\ List.length a = List.length r
            /\ forall c v, nth_error r c = Some (Some v) -> nth_error a c = Some v.
Proof.
  induction r as [|x r IH]; intros H.
  - exists []. repeat split. intros [|c] v Hc; discriminate Hc.
  - destruct (H 0%nat ltac:(cbn; lia)) as (v0 & Hv0). cbn in Hv0. injection Hv0 as ->.
    destruct IH as (a & Ha & La & Na).
    { intros c Hc. apply (H (S c)). cbn. lia. }
    exists (v0 :: a). cbn [asarray_row]. rewrite Ha. cbn [bind].
    split; [reflexivity|]. split; [cbn; lia|].
    intros [|c] v Hc; cbn in Hc |- *; [congruence | apply Na; exact Hc].
Qed.

Lemma asarray_filled (n_lon : Z) (p : list (list (option Q))) :
  Forall (fun row => Z.of_nat (List.length row) = n_lon
                     /\ forall c, (c < List.length row)%nat ->
                          exists v, nth_error row c = Some (Some v)) p ->
  exists a, asarray p = Ok a
            /\ Nc.conforms a (Z.of_nat (List.length p)) n_lon = true
            /\ forall r c v, entry p r c = Some (Some v) -> entry a r c = Some v.
Proof.
  induction 1 as [|row p [Hlen Hrow] Hp IH].
  - exists []. repeat split. intros r c v Hc. unfold entry in Hc.
    rewrite nth_error_nil in Hc. discriminate.
  - destruct (asarray_row_filled row Hrow) as (a0 & Ha0 & La0 & Na0).
    destruct IH as (a & Ha & Ca & Na).
    exists (a0 :: a). cbn [asarray]. rewrite Ha0. cbn [bind]. rewrite Ha. cbn [bind].
    split; [reflexivity|]. split.
    + unfold Nc.conforms in *. apply andb_true_iff in Ca. destruct Ca as [C1 C2].
      apply andb_true_iff. split.
      * apply Z.eqb_eq. apply Z.eqb_eq in C1. cbn [List.length]. lia.
      * cbn [forallb]. apply andb_true_iff. split; [|exact C2].
        apply Z.eqb_eq. lia.
    + intros r c v Hc. unfold entry in *.
      destruct (Z.to_nat r) as [|j] eqn:Hr; cbn [nth_error] in *.
      * apply Na0. exact Hc.
      * specialize (Na (Z.of_nat j) c v). rewrite Nat2Z.id in Na. apply Na. exact Hc.
Qed.

Section Complete.
Context {E : Externals}.

Lemma get_body_ok_value (self : OwiAscii.t) (p p' : list (list (option Q))) (i : Z) :
  0 <= i ->
  OwiAscii.get_body self p i = Ok p' ->
  exists v, record_value (OwiAscii.pre_file self) (OwiAscii.pre_idx_header_row self) i
            = Ok v.
Proof.
  intros Hi H. unfold OwiAscii.get_body in H. unfold record_value.
  destruct (Py.getitem (OwiAscii.pre_file self) _) as [line|]; cbn [bind] in *;
    [|discriminate].
  rewrite slice_of_field by (apply Z.mod_pos_bound; lia).
  destruct (py_float _) as [v|]; cbn [bind] in H; [|discriminate].
  exists v. reflexivity.
Qed.

(** A loop of [get] that ends has filled every position, and every
    position decodes. *)
Lemma get_prmsl_filled (self : OwiAscii.t) (prmsl : list (list (option Q))) :
  0 <= OwiAscii.num_lats self -> 0 <= OwiAscii.num_lons self ->
  OwiAscii.get_prmsl self = Ok prmsl ->
  shape (OwiAscii.num_lats self) (OwiAscii.num_lons self) prmsl
  /\ forall k, 0 <= k < OwiAscii.num_lats self * OwiAscii.num_lons self ->
       filled self prmsl k.
Proof.
  intros Hlat Hlon Hp.
  assert (Hdec : forall k, 0 <= k < OwiAscii.num_lats self * OwiAscii.num_lons self ->
            exists v, record_value (OwiAscii.pre_file self)
                        (OwiAscii.pre_idx_header_row self) k = Ok v).
  { intros k Hk.
    destruct (for_each_ok_all _ _ _ _ Hp k) as (s1 & s2 & Hb).
    - unfold Py.range. apply in_map_iff. exists (Z.to_nat k). split; [lia|].
      apply in_seq. lia.
    - apply (get_body_ok_value self s1 s2 k); [lia | exact Hb]. }
  destruct (get_loop self (Z.to_nat (OwiAscii.num_lats self * OwiAscii.num_lons self))
              0 _ Hlat Hlon ltac:(lia) (initial_shape self Hlat Hlon))
    as (p' & Hp' & Hshape & Hfilled).
  { intros k Hk. simpl in Hk. lia. }
  { intros k Hk. apply Hdec. lia. }
  assert (Heq : p' = prmsl).
  { change (OwiAscii.get_prmsl self = Ok p') in Hp'. congruence. }
  subst p'. split; [exact Hshape|].
  intros k Hk. apply Hfilled. lia.
Qed.

(** A nested list of the right shape with every position filled is an
    array of that shape. *)
Lemma filled_asarray (self : OwiAscii.t) (prmsl : list (list (option Q))) :
  0 <= OwiAscii.num_lats self -> 0 <= OwiAscii.num_lons self ->
  shape (OwiAscii.num_lats self) (OwiAscii.num_lons self) prmsl ->
  (forall k, 0 <= k < OwiAscii.num_lats self * OwiAscii.num_lons self ->
     filled self prmsl k) ->
  exists a, asarray prmsl = Ok a
            /\ Nc.conforms a (OwiAscii.num_lats self) (OwiAscii.num_lons self) = true
            /\ forall r c v, entry prmsl r c = Some (Some v) -> entry a r c = Some v.
Proof.
  intros Hlat Hlon [Hlen Hrows] Hfilled.
  set (n_lat := OwiAscii.num_lats self) in *.
  set (n_lon := OwiAscii.num_lons self) in *.
  destruct (asarray_filled n_lon prmsl) as (a & Ha & Ca & Na).
  { apply Forall_forall. intros row Hin.
    rewrite Forall_forall in Hrows. split; [apply Hrows; exact Hin|].
    intros c Hc. apply In_nth_error in Hin. destruct Hin as [r Hr].
    assert (Hrl : (r < List.length prmsl)%nat) by (apply nth_error_Some; congruence).
    pose proof (Hrows row (nth_error_In _ _ Hr)) as Hrow.
    set (k := Z.of_nat r * n_lon + Z.of_nat c).
    assert (Hpos : 0 < n_lon) by lia.
    assert (Hd : k / n_lon = Z.of_nat r).
    { unfold k. rewrite Z.add_comm, Z.div_add by lia.
      rewrite Z.div_small by lia. lia. }
    assert (Hm : k mod n_lon = Z.of_nat c).
    { unfold k. rewrite Z.add_comm, Z.mod_add by lia. apply Z.mod_small. lia. }
    destruct (Hfilled k) as (v & _ & He).
    { unfold k. nia. }
    fold n_lon in He. rewrite Hd, Hm in He. unfold entry in He.
    rewrite !Nat2Z.id, Hr in He. exists v. exact He. }
  exists a. split; [exact Ha|]. split; [rewrite Hlen in Ca; exact Ca | exact Na].
Qed.

(** X12. The pressure field of a snapshot is complete: when [get]
    returns, no position of the field is left [None], the field is an
    array of [num_lats] rows and [num_lons] columns, and the entry at
    row [k / num_lons], column [k mod num_lons] is the [k]-th value of
    the record. *)
Theorem pressure_field_complete (self : OwiAscii.t) (wd : WindData.t) :
  let n_lat := OwiAscii.num_lats self in
  let n_lon := OwiAscii.num_lons self in
  0 <= n_lat -> 0 <= n_lon ->
  OwiAscii.get self = Ok wd ->
  exists p,
    asarray (WindData.pressure wd) = Ok p
    /\ Nc.conforms p n_lat n_lon = true
    /\ forall k, 0 <= k < n_lat * n_lon ->
         exists v,
           record_value (OwiAscii.pre_file self) (OwiAscii.pre_idx_header_row self) k
           = Ok v
           /\ entry p (k / n_lon) (k mod n_lon) = Some v.
Proof.
  intros n_lat n_lon Hlat Hlon Hg.
  destruct (get_ok_inv self wd Hg) as (prmsl & _ & _ & Hp & _ & _ & _ & _ & Hpr & _).
  rewrite Hpr. clear Hpr.
  destruct (get_prmsl_filled self prmsl Hlat Hlon Hp) as (Hshape & Hfilled).
  destruct (filled_asarray self prmsl Hlat Hlon Hshape Hfilled) as (a & Ha & Ca & Na).
  exists a. split; [exact Ha|]. split; [exact Ca|].
  intros k Hk. destruct (Hfilled k Hk) as (v & Hv & He).
  exists v. split; [exact Hv|]. apply Na. exact He.
Qed.

End Complete.

Lemma pressure_field_complete_example :
  exists p,
    asarray (WindData.pressure Sample.snapshot) = Ok p
    /\ Nc.conforms p 3 3 = true
    /\ entry p 1 0 = Some 1010%Q.
Proof.
  destruct (@pressure_field_complete Decimal.externals
              (Sample.reader Sample.wind_file Sample.pre_file 384) Sample.snapshot)
    as (p & Hp & Hc & Hv).
  - cbn [Sample.reader OwiAscii.num_lats]. lia.
  - cbn [Sample.reader OwiAscii.num_lons]. lia.
  - vm_compute. reflexivity.
  - exists p. split; [exact Hp|]. split; [exact Hc|].
    cbn [Sample.reader OwiAscii.num_lats OwiAscii.num_lons OwiAscii.pre_file
         OwiAscii.pre_idx_header_row] in Hv.
    destruct (Hv 3 ltac:(lia)) as (v & Hrv & He).
    vm_compute in Hrv. injection Hrv as <-. exact He.
Defined.

(** ** Arguments, reader and container together *)

Section Pipeline.
Context {E : Externals}.


(** The grid of a record has the two counts it was asked for. *)
Lemma get_grid_counts (lines : list string) (hdr n_lat n_lon : Z) (g : WindGrid.t) :
  OwiAscii.get_grid lines hdr n_lat n_lon = Ok g ->
  WindGrid.n_latitude g = n_lat /\ WindGrid.n_longitude g = n_lon
  /\ 2 <= n_lat /\ 2 <= n_lon.
Proof.
  unfold OwiAscii.get_grid. intros H.
  destruct (Py.getitem lines hdr) as [line|]; cbn [bind] in H; [|discriminate].
  destruct (py_float _); cbn [bind] in H; [|discriminate].
  destruct (py_float _); cbn [bind] in H; [|discriminate].
  destruct (py_float _); cbn [bind] in H; [|discriminate].
  destruct (py_float _); cbn [bind] in H; [|discriminate].
  unfold Np.linspace in H.
  destruct (Z.ltb_spec n_lat 0); cbn [bind] in H; [discriminate|].
  destruct (Z.ltb_spec n_lon 0); cbn [bind] in H; [discriminate|].
  destruct (init_fields _ _ g H) as (F1 & F2 & _).
  destruct (init_ok_two_points _ _ g H) as (xa & xb & l1 & yc & yd & l2 & E1 & E2).
  apply (f_equal (@List.length Q)) in E1, E2.
  rewrite length_map, range_length in F1, F2, E1, E2. cbn [List.length] in E1, E2.
  lia.
Qed.

(** The grid of a constructed reader has the reader's two counts. *)
Lemma init_grid_counts (u_file v_file : OwiAscii.HblFile)
    (lines : list string) (idx : Z) (owi : OwiAscii.t) :
  OwiAscii.init u_file v_file lines idx = Ok owi ->
  WindGrid.n_latitude (OwiAscii.grid owi) = OwiAscii.num_lats owi
  /\ WindGrid.n_longitude (OwiAscii.grid owi) = OwiAscii.num_lons owi
  /\ 2 <= OwiAscii.num_lats owi /\ 2 <= OwiAscii.num_lons owi.
Proof.
  unfold OwiAscii.init. intros H.
  destruct (OwiAscii.get_num_lats lines) as [n_lat|]; cbn [bind] in H; [|discriminate].
  destruct (OwiAscii.get_num_lons lines) as [n_lon|]; cbn [bind] in H; [|discriminate].
  destruct (OwiAscii.get_date _ _) as [date|]; cbn [bind] in H; [|discriminate].
  destruct (OwiAscii.get_grid _ _ _ _) as [g|] eqn:Hg; cbn [bind] in H; [|discriminate].
  injection H as <-.
  cbn [OwiAscii.num_lats OwiAscii.num_lons OwiAscii.grid].
  exact (get_grid_counts _ _ _ _ _ Hg).
Qed.

(** X14. A constructed reader is consistent: its two counts are those
    of line 1 of the pressure file, its grid has exactly these counts
    of points, both are at least two, its header row is
    [1 + idx * (ceil(num_lats * num_lons / 8) + 1)], and for [idx >= 0]
    that row is a line of the file. *)
Theorem reader_grid_matches_header (u_file v_file : OwiAscii.HblFile)
    (lines : list string) (idx : Z) (owi : OwiAscii.t) :
  OwiAscii.init u_file v_file lines idx = Ok owi ->
  OwiAscii.get_num_lats lines = Ok (OwiAscii.num_lats owi)
  /\ OwiAscii.get_num_lons lines = Ok (OwiAscii.num_lons owi)
  /\ WindGrid.n_latitude (OwiAscii.grid owi) = OwiAscii.num_lats owi
  /\ WindGrid.n_longitude (OwiAscii.grid owi) = OwiAscii.num_lons owi
  /\ 2 <= OwiAscii.num_lats owi /\ 2 <= OwiAscii.num_lons owi
  /\ OwiAscii.pre_idx_header_row owi
     = 1 + idx * (Py.ceil_div8 (OwiAscii.num_lats owi * OwiAscii.num_lons owi) + 1)
  /\ (0 <= idx ->
      0 <= OwiAscii.pre_idx_header_row owi < Z.of_nat (List.length lines)).
Proof.
  intros H.
  destruct (init_grid_counts _ _ _ _ _ H) as (G1 & G2 & G3 & G4).
  unfold OwiAscii.init in H.
  destruct (OwiAscii.get_num_lats lines) as [n_lat|]; cbn [bind] in H; [|discriminate].
  destruct (OwiAscii.get_num_lons lines) as [n_lon|]; cbn [bind] in H; [|discriminate].
  destruct (OwiAscii.get_date _ _) as [date|] eqn:Hd; cbn [bind] in H; [|discriminate].
  destruct (OwiAscii.get_grid _ _ _ _) as [g|]; cbn [bind] in H; [|discriminate].
  injection H as <-.
  cbn [OwiAscii.num_lats OwiAscii.num_lons OwiAscii.grid OwiAscii.pre_idx_header_row]
    in *.
  split; [reflexivity|]. split; [reflexivity|].
  split; [exact G1|]. split; [exact G2|]. split; [exact G3|]. split; [exact G4|].
  split; [unfold OwiAscii.get_pre_idx_header_row; ring|].
  intros Hidx.
  pose proof (ceil_div8_spec (n_lat * n_lon)) as Hc.
  assert (Hrow : 0 <= OwiAscii.get_pre_idx_header_row n_lat n_lon idx).
  { unfold OwiAscii.get_pre_idx_header_row. nia. }
  split; [exact Hrow|].
  unfold OwiAscii.get_date in Hd.
  destruct (Z.ltb_spec (OwiAscii.get_pre_idx_header_row n_lat n_lon idx)
              (Z.of_nat (List.length lines))) as [Hlt|Hge]; [exact Hlt|].
  rewrite getitem_beyond in Hd by exact Hge. discriminate.
Qed.

(** X15. A snapshot fits the container made from its own grid.  When
    the reader is constructed, [get] returns and the two resampled wind
    fields have the reader's shape, a container made from the
    snapshot's grid without bounds has the reader's two counts as
    dimensions and accepts the snapshot at every record [k >= 0], after
    which it holds [k + 1] records. *)
Theorem snapshot_fits_own_container (u_file v_file : OwiAscii.HblFile)
    (lines : list string) (idx k : Z) (owi : OwiAscii.t) (wd : WindData.t) :
  OwiAscii.init u_file v_file lines idx = Ok owi ->
  OwiAscii.get owi = Ok wd ->
  Nc.conforms (WindData.u_velocity wd)
    (OwiAscii.num_lats owi) (OwiAscii.num_lons owi) = true ->
  Nc.conforms (WindData.v_velocity wd)
    (OwiAscii.num_lats owi) (OwiAscii.num_lons owi) = true ->
  0 <= k ->
  exists nc nc',
    OwiNetcdf.init (WindData.wind_grid wd) None = Ok nc
    /\ OwiNetcdf.dim_latitude nc = OwiAscii.num_lats owi
    /\ OwiNetcdf.dim_longitude nc = OwiAscii.num_lons owi
    /\ OwiNetcdf.append nc k wd = Ok nc'
    /\ OwiNetcdf.dim_time nc' = k + 1.
Proof.
  intros Hi Hg Cu Cv Hk.
  destruct (init_grid_counts _ _ _ _ _ Hi) as (G1 & G2 & N1 & N2).
  destruct (get_ok_inv owi wd Hg)
    as (prmsl & _ & _ & Hprmsl & _ & _ & _ & _ & Hpr & _ & Hgrid).
  destruct (get_prmsl_filled owi prmsl ltac:(lia) ltac:(lia) Hprmsl)
    as (Hshape & Hfilled).
  destruct (filled_asarray owi prmsl ltac:(lia) ltac:(lia) Hshape Hfilled)
    as (p & Hp & Cp & _).
  rewrite <- Hpr in Hp.
  eexists.
  assert (Hnc : OwiNetcdf.init (WindData.wind_grid wd) None
                = Ok (OwiNetcdf.mk (WindData.wind_grid wd) None None 0
                        (WindGrid.n_longitude (WindData.wind_grid wd))
                        (WindGrid.n_latitude (WindData.wind_grid wd))
                        [] (WindGrid.lon (WindData.wind_grid wd))
                        (WindGrid.lat (WindData.wind_grid wd)) [] [] [] true))
    by reflexivity.
  destruct (append_any_index
              (OwiNetcdf.mk (WindData.wind_grid wd) None None 0
                 (WindGrid.n_longitude (WindData.wind_grid wd))
                 (WindGrid.n_latitude (WindData.wind_grid wd))
                 [] (WindGrid.lon (WindData.wind_grid wd))
                 (WindGrid.lat (WindData.wind_grid wd)) [] [] [] true) k wd)
    as (nc' & Ha & Hd & _).
  - reflexivity.
  - exact Hk.
  - exists (WindData.pressure wd), (WindData.u_velocity wd), (WindData.v_velocity wd), p.
    cbn [OwiNetcdf.dim_latitude OwiNetcdf.dim_longitude].
    rewrite Hgrid, G1, G2. repeat split; assumption.
  - exists nc'. split; [exact Hnc|].
    cbn [OwiNetcdf.dim_latitude OwiNetcdf.dim_longitude].
    split; [rewrite Hgrid; exact G1|]. split; [rewrite Hgrid; exact G2|].
    split; [exact Ha|].
    rewrite Hd. cbn [OwiNetcdf.dim_time]. lia.
Qed.

End Pipeline.


Lemma reader_grid_matches_header_example :
  WindGrid.n_latitude (OwiAscii.grid (Sample.reader Sample.wind_file Sample.pre_file 384)) = 3
  /\ 0 <= 1 + 3 * 384 < Z.of_nat (List.length Sample.pre_file).
Proof.
  destruct (@reader_grid_matches_header Decimal.externals Sample.wind_file
              Sample.wind_file Sample.pre_file 384
              (Sample.reader Sample.wind_file Sample.pre_file 384))
    as (_ & _ & Hn & _ & _ & _ & _ & Hrow).
  - exact (proj2 (proj2 sample_readers_built)).
  - split; [exact Hn | apply Hrow; lia].
Defined.

Lemma snapshot_fits_own_container_example :
  exists nc nc',
    OwiNetcdf.init (WindData.wind_grid Sample.snapshot) None = Ok nc
    /\ @OwiNetcdf.append Decimal.externals nc 0 Sample.snapshot = Ok nc'
    /\ OwiNetcdf.dim_time nc' = 1.
Proof.
  destruct (@snapshot_fits_own_container Decimal.externals Sample.wind_file
              Sample.wind_file Sample.pre_file 384 0
              (Sample.reader Sample.wind_file Sample.pre_file 384) Sample.snapshot)
    as (nc & nc' & Hnc & _ & _ & Ha & Hd).
  - exact (proj2 (proj2 sample_readers_built)).
  - vm_compute. reflexivity.
  - vm_compute. reflexivity.
  - vm_compute. reflexivity.
  - lia.
  - exists nc, nc'. repeat split; assumption.
Defined.

(** ** Whole runs of main *)

Section Main.
Context {E : Externals}.
Variables (u_file v_file : OwiAscii.HblFile) (pre_file : list string).
Variables (output_format : string) (bounds : option (list Q)).







Lemma init_keeps_arguments (idx : Z) (owi : OwiAscii.t) :
  OwiAscii.init u_file v_file pre_file idx = Ok owi ->
  OwiAscii.u_file owi = u_file /\ OwiAscii.v_file owi = v_file
  /\ OwiAscii.pre_file owi = pre_file /\ OwiAscii.idx owi = idx.
Proof.
  unfold OwiAscii.init. intros H.
  destruct (OwiAscii.get_num_lats pre_file); cbn [bind] in H; [|discriminate].
  destruct (OwiAscii.get_num_lons pre_file); cbn [bind] in H; [|discriminate].
  destruct (OwiAscii.get_date _ _); cbn [bind] in H; [|discriminate].
  destruct (OwiAscii.get_grid _ _ _ _); cbn [bind] in H; [|discriminate].
  injection H as <-. repeat split; reflexivity.
Qed.

Lemma get_needs_sample (owi : OwiAscii.t) :
  0 <= (OwiAscii.idx owi - 384) * 15 ->
  (Z.of_nat (List.length (OwiAscii.hbl_var (OwiAscii.u_file owi)))
     <= (OwiAscii.idx owi - 384) * 15
   \/ Z.of_nat (List.length (OwiAscii.hbl_var (OwiAscii.v_file owi)))
        <= (OwiAscii.idx owi - 384) * 15) ->
  exists e, OwiAscii.get owi = Raise e.
Proof.
  intros Hnn Hshort. unfold OwiAscii.get.
  destruct (OwiAscii.get_prmsl owi); cbn [bind]; [|eexists; reflexivity].
  destruct (Py.getitem (OwiAscii.hbl_var (OwiAscii.u_file owi)) _) as [hu|] eqn:Hu;
    cbn [bind]; [|eexists; reflexivity].
  destruct (interp2d _ _ hu _ _); cbn [bind]; [|eexists; reflexivity].
  destruct Hshort as [Hs|Hs].
  - rewrite getitem_beyond in Hu by exact Hs. discriminate.
  - rewrite getitem_beyond by exact Hs. eexists; reflexivity.
Qed.

(** X17. [main] fails when the u or the v series has fewer than 3226
    samples: record 215 needs sample [15 * 215 = 3225]. *)
Theorem main_needs_3226_samples :
  (List.length (OwiAscii.hbl_var u_file) < 3226
   \/ List.length (OwiAscii.hbl_var v_file) < 3226)%nat ->
  exists e, main u_file v_file pre_file output_format bounds = Raise e.
Proof.
  intros Hshort.
  destruct (for_each_raises (fun _ => True)
              (main_body u_file v_file pre_file output_format bounds)
              (Py.range num_times) 215) with (s := @None OwiNetcdf.t)
    as (e & He & _).
  - unfold Py.range. apply in_map_iff. exists 215%nat. split; [reflexivity|].
    apply in_seq. cbn. lia.
  - intros s. unfold main_body.
    destruct (OwiAscii.init _ _ _ _) as [owi|] eqn:Hi; cbn [bind];
      [|eexists; reflexivity].
    destruct (init_keeps_arguments _ _ Hi) as (Hu & Hv & _ & Hidx).
    destruct (get_needs_sample owi) as (e & He).
    + rewrite Hidx. lia.
    + rewrite Hidx, Hu, Hv. lia.
    + rewrite He. eexists; reflexivity.
  - trivial.
  - exists e. unfold main. rewrite He. reflexivity.
Qed.

(** X18. With an output format other than "netcdf" [main] always
    fails, and when the first snapshot can be read the error is the
    [RuntimeError] "Invalid output format selected". *)
Theorem main_refuses_other_formats :
  output_format <> "netcdf"%string ->
  exists e,
    main u_file v_file pre_file output_format bounds = Raise e
    /\ (is_ok (owi <- OwiAscii.init u_file v_file pre_file 384 ;; OwiAscii.get owi) = true ->
        e = RuntimeError "Invalid output format selected").
Proof.
  intros Hfmt.
  assert (Hb : exists e,
             main_body u_file v_file pre_file output_format bounds None 0 = Raise e
             /\ (is_ok (owi <- OwiAscii.init u_file v_file pre_file 384 ;;
                        OwiAscii.get owi) = true ->
                 e = RuntimeError "Invalid output format selected")).
  { unfold main_body. change (384 + 0) with 384.
    destruct (OwiAscii.init _ _ _ 384) as [owi|] eqn:Hi; cbn [bind].
    2:{ eexists. split; [reflexivity|]. intros Hok; discriminate Hok. }
    destruct (OwiAscii.get owi) as [wd|] eqn:Hg; cbn [bind].
    2:{ eexists. split; [reflexivity|]. intros Hok; discriminate Hok. }
    destruct (String.eqb_spec output_format "netcdf"); [contradiction|].
    cbn [bind]. eexists. split; [reflexivity|]. reflexivity. }
  destruct Hb as (e & He & Hmsg).
  exists e. split; [|exact Hmsg].
  unfold main. change (Py.range num_times) with (0 :: map Z.of_nat (seq 1 215)).
  cbn [for_each]. rewrite He. reflexivity.
Qed.

End Main.


Lemma main_needs_3226_samples_example :
  exists e,
    @main Decimal.externals Sample.short_wind_file Sample.wind_file Run.pre_file
      "netcdf" None = Raise e.
Proof.
  apply (@main_needs_3226_samples Decimal.externals).
  left. apply Nat.ltb_lt. vm_compute. reflexivity.
Defined.

Lemma main_refuses_other_formats_example :
  @main Decimal.externals Sample.wind_file Sample.wind_file Run.pre_file
    "ascii" None = Raise (RuntimeError "Invalid output format selected").
Proof.
  destruct (@main_refuses_other_formats Decimal.externals Sample.wind_file
              Sample.wind_file Run.pre_file "ascii" None ltac:(discriminate))
    as (e & He & Hmsg).
  rewrite He. f_equal. apply Hmsg. vm_compute. reflexivity.
Defined.

